(** * barber-bot: availability, booking and the conversation state machine

    A shallow embedding of [app/services/calendar.py], [app/logic/booking.py],
    [app/logic/responses.py] and [app/logic/intent_router.py], followed by the
    properties of the scheduling engine and of the per-user dialogue.

    Conventions of the embedding.
    - A naive [datetime] is the number of microseconds since the epoch, a [Z];
      a [timedelta] is a number of microseconds.  Year-range overflow of
      [datetime] is outside the model.
    - The ';'-separated business-hour strings are taken after [split] and the
      [int] parse: a list of (hour, minute) pairs with in-range fields.
    - The Google Calendar client, the OpenAI client, [datetime.now],
      [random.choice] and [strftime] are the environment: each call receives
      their answers as arguments.  Of the client's failures the code handles
      [HttpError]; that is the failure the model has.
    - A Python loop that may not terminate is run with fuel; [None] is the
      outcome of a call that does not return. *)

From Stdlib Require Import ZArith List String Ascii Bool Lia Sorted.
From stdpp Require Import base option list gmap strings pretty.
Import ListNotations.

(** ** datetime *)

Module Datetime.
Local Open Scope Z_scope.

Definition usec_per_second : Z := 1000000.
Definition usec_per_minute : Z := 60 * usec_per_second.
Definition usec_per_hour : Z := 60 * usec_per_minute.
Definition usec_per_day : Z := 24 * usec_per_hour.

(** [timedelta(minutes=m)], [timedelta(days=d)] *)
Definition timedelta_minutes (m : Z) : Z := m * usec_per_minute.
Definition timedelta_days (d : Z) : Z := d * usec_per_day.

(** [dt.date()], as the day number *)
Definition date (dt : Z) : Z := dt / usec_per_day.

(** [dt.replace(hour=h, minute=m, second=0, microsecond=0)] *)
Definition replace (dt hour minute : Z) : Z :=
  date dt * usec_per_day + hour * usec_per_hour + minute * usec_per_minute.

(** [abs((a - b).total_seconds()) < s] for a whole number of seconds [s]:
    [total_seconds] divides the microsecond count by 10**6, correctly
    rounded, so the comparison with [s] is the comparison of the
    microsecond counts. *)
Definition abs_seconds_lt (a b s : Z) : bool :=
  Z.abs (a - b) <? s * usec_per_second.
End Datetime.

(** ** services/calendar.py *)

Module CalendarService.
Import Datetime.
Local Open Scope Z_scope.

(** A calendar event as [get_available_slots] reads it: the parsed
    [event['start']] and [event['end']], naive datetimes like the slots they
    are compared with.  (Python refuses to compare a naive with an
    offset-aware datetime; such event times are outside the model.) *)
Record event := { event_start : Z; event_end : Z }.

(** The body [create_appointment] sends. *)
Record event_body := {
  summary : string;
  description : string;
  start_dateTime : Z;
  end_dateTime : Z
}.

Inductive http_result (A : Type) : Type :=
| Returned (a : A)
| HttpError.
Arguments Returned {A} a.
Arguments HttpError {A}.

(** The remote calendar as one call observes it: [events().list(...)] by
    its [timeMin] and [timeMax], [events().insert(...)] by its body,
    answering with [event.get('id')]. *)
Record remote := {
  events_list : Z -> Z -> http_result (list event);
  events_insert : event_body -> http_result (option string)
}.

Inductive api_call :=
| EventsList (timeMin timeMax : Z)
| EventsInsert (body : event_body).

(** [self.service] is [None] when [_initialize_service] failed. *)
Record t := {
  calendar_id : string;
  service : bool
}.

Definition newline : string := String (ascii_of_nat 10) EmptyString.

Definition create_appointment (self : t) (api : remote)
    (customer_name customer_contact : string) (start_time : Z)
    (duration_minutes : Z) (service_type : string)
  : option string * list api_call :=
  if negb (service self) then (None, [])
  else
    let end_time := start_time + timedelta_minutes duration_minutes in
    let ev := {|
      summary := service_type +:+ " - " +:+ customer_name;
      description := "Customer: " +:+ customer_name +:+ newline
                     +:+ "Contact: @" +:+ customer_contact +:+ newline
                     +:+ "Service: " +:+ service_type;
      start_dateTime := start_time;
      end_dateTime := end_time |} in
    match events_insert api ev with
    | Returned id => (id, [EventsInsert ev])
    | HttpError => (None, [EventsInsert ev])
    end.

(** [zip(start_times, end_times)] turned into the day's blocks. *)
Fixpoint time_blocks (date : Z) (start_times end_times : list (Z * Z))
  : list (Z * Z) :=
  match start_times, end_times with
  | (start_hour, start_minute) :: ss, (end_hour, end_minute) :: es =>
      (replace date start_hour start_minute, replace date end_hour end_minute)
        :: time_blocks date ss es
  | _, _ => []
  end.

(** The inner [while] of slot generation:
    [while current_slot + step <= block_end: append; current_slot += step]. *)
Fixpoint block_slots (fuel : nat) (current_slot block_end step : Z)
  : option (list Z) :=
  match fuel with
  | O => if current_slot + step <=? block_end then None else Some []
  | S fuel' =>
      if current_slot + step <=? block_end
      then cons current_slot <$> block_slots fuel' (current_slot + step) block_end step
      else Some []
  end.

(** The outer [for block_start, block_end in time_blocks]. *)
Fixpoint all_slots (fuel : nat) (blocks : list (Z * Z)) (step : Z)
  : option (list Z) :=
  match blocks with
  | [] => Some []
  | (block_start, block_end) :: rest =>
      here ← block_slots fuel block_start block_end step;
      there ← all_slots fuel rest step;
      Some (here ++ there)
  end.

(** The inner [for event in events] with its [break]. *)
Fixpoint is_available (slot slot_end : Z) (events : list event) : bool :=
  match events with
  | [] => true
  | ev :: rest =>
      if (slot <? event_end ev) && (slot_end >? event_start ev)
      then false
      else is_available slot slot_end rest
  end.

(** The outer [for slot in all_slots]. *)
Fixpoint available_slots (slots : list Z) (step : Z) (events : list event)
  : list Z :=
  match slots with
  | [] => []
  | slot :: rest =>
      let slot_end := slot + step in
      if is_available slot slot_end events
      then slot :: available_slots rest step events
      else available_slots rest step events
  end.

(** Iterations after which the [while] over one block has stopped when the
    step is positive. *)
Definition block_fuel (block : Z * Z) (step : Z) : nat :=
  S (Z.to_nat ((snd block - fst block) / step)).

Definition loop_fuel (blocks : list (Z * Z)) (step : Z) : nat :=
  foldr (fun b acc => Nat.max (block_fuel b step) acc) O blocks.

Definition get_available_slots (self : t) (api : remote) (date : Z)
    (business_hours_start business_hours_end : list (Z * Z))
    (slot_duration_minutes : Z)
  : option (list Z * list api_call) :=
  if negb (service self) then Some ([], [])
  else if negb (length business_hours_start =? length business_hours_end)%nat
  then Some ([], [])
  else
    let blocks := time_blocks date business_hours_start business_hours_end in
    match blocks, last blocks with
    | (day_start, _) :: _, Some (_, day_end) =>
        let call := EventsList day_start day_end in
        match events_list api day_start day_end with
        | Returned events =>
            let step := timedelta_minutes slot_duration_minutes in
            slots ← all_slots (loop_fuel blocks step) blocks step;
            Some (available_slots slots step events, [call])
        | HttpError => Some ([], [call])
        end
    | _, _ => Some ([], []) (* no block: [split] never returns an empty list *)
    end.
End CalendarService.

(** ** Python values and slices *)

Module Py.
(** The values the booking dictionaries hold. *)
Inductive value :=
| PyNone
| PyBool (b : bool)
| PyStr (s : string)
| PyDatetime (dt : Z).

(** [bool(v)]; a missing key reads as [None]. *)
Definition truthy (v : option value) : bool :=
  match v with
  | Some (PyBool b) => b
  | Some (PyStr s) => negb (String.eqb s "")
  | Some (PyDatetime _) => true
  | Some PyNone | None => false
  end.

(** [l[-n:]] for a positive [n]. *)
Definition last_n {A : Type} (n : nat) (l : list A) : list A :=
  drop (length l - n) l.

(** [random.choice(options)], the drawn index given. *)
Definition choice (pick : nat) (options : list string) : string :=
  nth (pick mod length options) options EmptyString.

(** [s.lower()] on ASCII letters. *)
Definition lower_ascii (c : ascii) : ascii :=
  let n := nat_of_ascii c in
  if (65 <=? n)%nat && (n <=? 90)%nat then ascii_of_nat (n + 32) else c.

Fixpoint lower (s : string) : string :=
  match s with
  | EmptyString => EmptyString
  | String c rest => String (lower_ascii c) (lower rest)
  end.

(** [word in s] *)
Fixpoint contains (word s : string) : bool :=
  if String.prefix word s then true
  else match s with
       | EmptyString => false
       | String _ rest => contains word rest
       end.
End Py.

(** ** logic/responses.py *)

Module ResponseGenerator.
Import Py.

Record t := { barber_name : string }.

Definition nl : string := CalendarService.newline.

Definition greeting_response (self : t) (pick : nat) : string :=
  choice pick [
    "Hey! Thanks for reaching out. I'm here to help you book an appointment with "
      +:+ barber_name self +:+ ". When would you like to come in?";
    "What's up! Looking to book a cut with " +:+ barber_name self
      +:+ "? Let me know what day works for you!";
    "Hey there! Ready to get fresh? When are you looking to book an appointment?";
    "Hello! I can help you schedule an appointment with " +:+ barber_name self
      +:+ ". What day were you thinking?" ].

Definition ask_datetime_response (pick : nat) : string :=
  choice pick [
    "What day and time work best for you? Just let me know like 'tomorrow at 2pm' or 'next Monday morning'";
    "When would you like to come in? Give me a day and time, like 'Saturday at 3pm' or 'next week'";
    "What's your preferred day and time? I can check availability for you.";
    "When are you free? Let me know a day and time that works for you!" ].

(** The slot dictionaries [BookingManager.get_available_slots] builds. *)
Record slot_entry := {
  datetime : Z;
  formatted : string;
  short : string
}.

Fixpoint numbered_lines (i : nat) (slots : list slot_entry) : string :=
  match slots with
  | [] => EmptyString
  | slot :: rest =>
      pretty.pretty i +:+ ". " +:+ formatted slot +:+ nl +:+ numbered_lines (S i) rest
  end.

Definition availability_response (available_slots : list slot_entry) : string :=
  match available_slots with
  | [] => "Sorry, I'm not seeing any available slots right now. Could you try a different day or time?"
  | _ =>
      "Here are the next available times:" +:+ nl +:+ nl
      +:+ numbered_lines 1 (take 3 available_slots)
      +:+ nl +:+ "Which one works for you? Just reply with the number or the time!"
  end.

Section Formatting.
(** [appointment_time.strftime(fmt)] *)
Variable strftime : Z -> string -> string.

Definition confirmation_response (appointment_time : Z)
    (event_id : option Py.value) (pick : nat) : string :=
  let formatted_time := strftime appointment_time "%A, %B %d at %I:%M %p" in
  choice pick [
    "✅ You're all set! Your appointment is confirmed for " +:+ formatted_time +:+ ". See you then!";
    "🔥 Booked! You're scheduled for " +:+ formatted_time +:+ ". Looking forward to it!";
    "✂️ Perfect! You're confirmed for " +:+ formatted_time +:+ ". We'll see you there!";
    "📅 Done! Your appointment is locked in for " +:+ formatted_time +:+ ". Can't wait to see you!" ]
  +:+ nl +:+ nl
  +:+ "You'll get a reminder before your appointment. If you need to cancel or reschedule, just let me know!".
End Formatting.

Definition booking_error_response : string :=
  "Oops, something went wrong creating your appointment. Can you try again? If this keeps happening, please DM us directly.".

Definition clarify_time_response (pick : nat) : string :=
  choice pick [
    "Just to confirm - which time slot did you want? Let me know the specific time!";
    "Which one of those times works for you? Just tell me the day and time you prefer.";
    "Can you confirm which time you'd like? Just let me know!" ].

Definition cancellation_response : string :=
  "No problem! If you have an existing appointment you'd like to cancel, please send me the date and time. Or if you want to reschedule, just let me know when works better for you!".

Definition fallback_response (pick : nat) : string :=
  choice pick [
    "Sorry, I didn't quite catch that. Are you looking to book an appointment? Let me know what day works for you!";
    "I want to make sure I help you right! Are you trying to book, reschedule, or cancel an appointment?";
    "Hmm, I'm not sure I understood. Want to book an appointment? Just tell me when you're free!" ].
End ResponseGenerator.

(** ** logic/booking.py *)

Module BookingManager.
Import Datetime Py.
Local Open Scope Z_scope.

Record t := {
  calendar_service : CalendarService.t;
  business_hours_start : list (Z * Z);
  business_hours_end : list (Z * Z);
  appointment_duration : Z
}.

(** The two result dictionaries of [create_booking]. *)
Definition failure (error message : string) : gmap string value :=
  list_to_map [
    ("success"%string, PyBool false);
    ("error"%string, PyStr error);
    ("message"%string, PyStr message) ].

Definition booked (event_id customer_name service_type : string)
    (appointment_time : Z) : gmap string value :=
  list_to_map [
    ("success"%string, PyBool true);
    ("event_id"%string, PyStr event_id);
    ("appointment_time"%string, PyDatetime appointment_time);
    ("customer_name"%string, PyStr customer_name);
    ("service_type"%string, PyStr service_type) ].

Section Environment.
Variable strftime : Z -> string -> string.
(** [clock n] is the answer of the [n]-th [datetime.now()] of the call. *)
Variable clock : nat -> Z.
Variable api : CalendarService.remote.

Definition entry (slot : Z) : ResponseGenerator.slot_entry := {|
  ResponseGenerator.datetime := slot;
  ResponseGenerator.formatted := strftime slot "%A, %B %d at %I:%M %p";
  ResponseGenerator.short := strftime slot "%a %m/%d at %I:%M%p" |}.

(** [for slot in day_slots: if slot > datetime.now(): append] *)
Fixpoint future_slots (tick : nat) (day_slots : list Z)
  : list ResponseGenerator.slot_entry * nat :=
  match day_slots with
  | [] => ([], tick)
  | slot :: rest =>
      let now := clock tick in
      let '(more, tick') := future_slots (S tick) rest in
      (if slot >? now then entry slot :: more else more, tick')
  end.

(** [for day_offset in range(num_days)] *)
Fixpoint days_loop (self : t) (tick : nat) (requested_date : Z)
    (offsets : list Z)
  : option (list ResponseGenerator.slot_entry * list CalendarService.api_call) :=
  match offsets with
  | [] => Some ([], [])
  | day_offset :: rest =>
      let check_date := requested_date + timedelta_days day_offset in
      if date check_date <? date (clock tick)
      then days_loop self (S tick) requested_date rest
      else
        '(day_slots, calls) ←
          CalendarService.get_available_slots (calendar_service self) api
            check_date (business_hours_start self) (business_hours_end self)
            (appointment_duration self);
        let '(shown, tick') := future_slots (S tick) day_slots in
        '(more, calls') ← days_loop self tick' requested_date rest;
        Some (shown ++ more, calls ++ calls')
  end.

(** [range(n)] *)
Definition range (n : Z) : list Z := Z.of_nat <$> seq 0 (Z.to_nat n).

Definition get_available_slots (self : t) (requested_date : Z) (num_days : Z)
  : option (list ResponseGenerator.slot_entry * list CalendarService.api_call) :=
  '(available_slots, calls) ← days_loop self 0 requested_date (range num_days);
  Some (take 5 available_slots, calls).

(** [any(abs((slot - appointment_time).total_seconds()) < 60 for slot in ...)] *)
Fixpoint any_within_minute (appointment_time : Z) (available_slots : list Z)
  : bool :=
  match available_slots with
  | [] => false
  | slot :: rest =>
      if abs_seconds_lt slot appointment_time 60 then true
      else any_within_minute appointment_time rest
  end.

Definition create_booking (self : t) (user_id customer_name : string)
    (appointment_time : Z) (service_type : string)
  : option (gmap string value * list CalendarService.api_call) :=
  let check_date := replace appointment_time 0 0 in
  '(available_slots, calls) ←
    CalendarService.get_available_slots (calendar_service self) api
      check_date (business_hours_start self) (business_hours_end self)
      (appointment_duration self);
  let is_available := any_within_minute appointment_time available_slots in
  if negb is_available then
    Some (failure "time_not_available"
            "Sorry, that time slot is no longer available.", calls)
  else
    let '(event_id, calls') :=
      CalendarService.create_appointment (calendar_service self) api
        customer_name user_id appointment_time (appointment_duration self)
        service_type in
    match event_id with
    | Some id =>
        if negb (String.eqb id "") then
          Some (booked id customer_name service_type appointment_time,
                calls ++ calls')
        else
          Some (failure "calendar_error"
                  "Sorry, there was an error creating your appointment.",
                calls ++ calls')
    | None =>
        Some (failure "calendar_error"
                "Sorry, there was an error creating your appointment.",
              calls ++ calls')
    end.
End Environment.
End BookingManager.

(** ** logic/intent_router.py *)

Module IntentRouter.
Import Py.

Inductive stage :=
| initial
| greeted
| showing_availability
| asking_datetime
| awaiting_confirmation
| completed
| cancelled.

Inductive role := user | assistant.

Record turn := { turn_role : role; content : string }.

(** One entry of [self.conversation_state]. *)
Record state := {
  stage_of : stage;
  history : list turn;
  booking_data : gmap string value
}.

Record t := {
  response_generator : ResponseGenerator.t;
  booking_manager : BookingManager.t;
  conversation_state : gmap string state
}.

(** What the collaborators answer during one [route_message]:
    the classifier's stripped, lower-cased reply ([None]: the call raised),
    the parsed reply of the date extractor ([None]: "NONE" or a failure),
    the answer to a general question ([None]: the call raised), the index
    [random.choice] draws, the clock and the calendar. *)
Record world := {
  intent_reply : option string;
  date_reply : option Z;
  answer_reply : option string;
  pick : nat;
  clock : nat -> Z;
  api : CalendarService.remote
}.

(** What one [route_message] does to its collaborators. *)
Inductive effect :=
| Calendar (call : CalendarService.api_call)
| Booking (user_id : string) (appointment_time : Z) (result : gmap string value)
| Question (context : list turn).

Definition calendar_effects (calls : list CalendarService.api_call)
  : list effect := Calendar <$> calls.

Definition new_state : state :=
  {| stage_of := initial; history := []; booking_data := ∅ |}.

Definition set_stage (st : state) (s : stage) : state :=
  {| stage_of := s; history := history st; booking_data := booking_data st |}.

Definition set_history (st : state) (h : list turn) : state :=
  {| stage_of := stage_of st; history := h; booking_data := booking_data st |}.

Definition set_booking_data (st : state) (d : gmap string value) : state :=
  {| stage_of := stage_of st; history := history st; booking_data := d |}.

Definition _detect_intent (w : world) : string :=
  match intent_reply w with
  | Some intent => intent
  | None => "other"
  end.

Definition _extract_date_time (w : world) : option Z := date_reply w.

Definition confirmation_words : list string :=
  ["yes"; "confirm"; "book"; "that works"; "sounds good"]%string.

(** [state.get("booking_data", {}).get("proposed_time")] behind the keyword
    test.  The caller tests the result for truth and passes it on as a
    datetime. *)
Definition _extract_confirmed_time (message_text : string) (st : state)
  : option value :=
  let message_lower := lower message_text in
  if existsb (fun word => contains word message_lower) confirmation_words
  then booking_data st !! "proposed_time"%string
  else None.

Definition _answer_general_question (self : t) (w : world)
    (history : list turn) : string * list effect :=
  let context := last_n 4 history in
  match answer_reply w with
  | Some answer => (answer, [Question context])
  | None =>
      (ResponseGenerator.fallback_response (pick w), [Question context])
  end.

Section Formatting.
Variable strftime : Z -> string -> string.

Definition in_confirmable_stage (s : stage) : bool :=
  match s with
  | showing_availability | awaiting_confirmation => true
  | _ => false
  end.

Definition _handle_intent (self : t) (w : world) (user_id intent
    message_text : string) (st : state)
  : option (string * state * list effect) :=
  if String.eqb intent "greeting" then
    Some (ResponseGenerator.greeting_response (response_generator self) (pick w),
          set_stage st greeted, [])
  else if String.eqb intent "booking_inquiry" then
    match _extract_date_time w with
    | Some date_info =>
        '(available_slots, calls) ←
          BookingManager.get_available_slots strftime (clock w) (api w)
            (booking_manager self) date_info 3;
        Some (ResponseGenerator.availability_response available_slots,
              set_stage st showing_availability, calendar_effects calls)
    | None =>
        Some (ResponseGenerator.ask_datetime_response (pick w),
              set_stage st asking_datetime, [])
    end
  else if String.eqb intent "confirm_booking"
          && in_confirmable_stage (stage_of st) then
    let confirmed_slot := _extract_confirmed_time message_text st in
    if truthy confirmed_slot then
      match confirmed_slot with
      | Some (PyDatetime appointment_time) =>
          (* [state.get("customer_name", "Customer")]: the key is never set;
             [service_type] takes its default *)
          '(booking_result, calls) ←
            BookingManager.create_booking (api w) (booking_manager self)
              user_id "Customer" appointment_time "Haircut";
          let log := calendar_effects calls
                       ++ [Booking user_id appointment_time booking_result] in
          if truthy (booking_result !! "success"%string) then
            Some (ResponseGenerator.confirmation_response strftime
                    appointment_time (booking_result !! "event_id"%string)
                    (pick w),
                  set_booking_data (set_stage st completed) booking_result,
                  log)
          else
            Some (ResponseGenerator.booking_error_response, st, log)
      | _ => None (* a truthy value that is no datetime: [create_booking] raises *)
      end
    else
      Some (ResponseGenerator.clarify_time_response (pick w),
            set_stage st awaiting_confirmation, [])
  else if String.eqb intent "cancel_booking" then
    Some (ResponseGenerator.cancellation_response, set_stage st cancelled, [])
  else if String.eqb intent "general_question" then
    let '(answer, log) := _answer_general_question self w (history st) in
    Some (answer, st, log)
  else
    Some (ResponseGenerator.fallback_response (pick w), st, []).

Definition route_message (self : t) (w : world) (user_id message_text : string)
  : option (string * t * list effect) :=
  let state0 :=
    match conversation_state self !! user_id with
    | Some st => st
    | None => new_state
    end in
  let state1 :=
    set_history state0
      (history state0 ++ [{| turn_role := user; content := message_text |}]) in
  let intent := _detect_intent w in
  '(response, state2, log) ←
    _handle_intent self w user_id intent message_text state1;
  let state3 :=
    set_history state2
      (history state2 ++ [{| turn_role := assistant; content := response |}]) in
  let state4 :=
    if (10 <? length (history state3))%nat
    then set_history state3 (last_n 10 (history state3))
    else state3 in
  Some (response,
        {| response_generator := response_generator self;
           booking_manager := booking_manager self;
           conversation_state := <[user_id := state4]> (conversation_state self) |},
        log).
End Formatting.

Definition clear_conversation (self : t) (user_id : string) : t :=
  {| response_generator := response_generator self;
     booking_manager := booking_manager self;
     conversation_state := delete user_id (conversation_state self) |}.
End IntentRouter.

(** * Properties *)

Import Datetime.

(** ** Slot generation *)

Section SlotGeneration.
Local Open Scope Z_scope.

(** The starts the specification lists for one block:
    [block.start + k * step] for [k] below [n]. *)
Definition starts (block_start step : Z) (n : nat) : list Z :=
  (fun k => block_start + Z.of_nat k * step) <$> seq 0 n.

(** Number of steps that fit in a block. *)
Definition fits (block : Z * Z) (step : Z) : nat :=
  Z.to_nat ((snd block - fst block) / step).

Lemma starts_S block_start step n :
  starts block_start step (S n)
  = block_start :: starts (block_start + step) step n.
Proof.
  unfold starts. cbn [seq fmap list_fmap]. f_equal; [lia|].
  rewrite <- seq_shift, <- list_fmap_compose.
  apply list_fmap_ext. intros _ k _. cbn. lia.
Qed.

Lemma fits_step block_start block_end step :
  0 < step -> block_start + step <= block_end ->
  fits (block_start, block_end) step
  = S (fits (block_start + step, block_end) step).
Proof.
  intros Hs Hg. unfold fits. cbn [fst snd].
  replace (block_end - block_start)
    with ((block_end - (block_start + step)) + 1 * step) by lia.
  rewrite Z.div_add by lia.
  assert (0 <= (block_end - (block_start + step)) / step)
    by (apply Z.div_pos; lia).
  lia.
Qed.

Lemma fits_none block_start block_end step :
  0 < step -> ~ block_start + step <= block_end ->
  fits (block_start, block_end) step = O.
Proof.
  intros Hs Hg. unfold fits. cbn [fst snd].
  destruct (Z_lt_le_dec (block_end - block_start) 0) as [Hneg|Hpos].
  - assert ((block_end - block_start) / step < 0)
      by (apply Z.div_lt_upper_bound; lia).
    lia.
  - rewrite Z.div_small by lia. reflexivity.
Qed.

Lemma block_slots_run step (Hs : 0 < step) fuel :
  forall current_slot block_end,
    (fits (current_slot, block_end) step < fuel)%nat ->
    CalendarService.block_slots fuel current_slot block_end step
    = Some (starts current_slot step (fits (current_slot, block_end) step)).
Proof.
  induction fuel as [|fuel IH]; intros cur be Hfuel; [lia|].
  cbn [CalendarService.block_slots].
  destruct (Z.leb_spec (cur + step) be) as [Hg|Hg].
  - rewrite (fits_step _ _ _ Hs Hg) in Hfuel |- *.
    rewrite IH by lia. rewrite starts_S. reflexivity.
  - rewrite fits_none by lia. reflexivity.
Qed.

Lemma loop_fuel_in blocks step b :
  In b blocks ->
  (CalendarService.block_fuel b step <= CalendarService.loop_fuel blocks step)%nat.
Proof.
  induction blocks as [|b' blocks IH]; [intros []|].
  intros [->|Hin]; cbn [CalendarService.loop_fuel foldr].
  - apply Nat.le_max_l.
  - etransitivity; [apply IH, Hin|apply Nat.le_max_r].
Qed.

Lemma all_slots_run step (Hs : 0 < step) fuel blocks :
  (forall b, In b blocks -> (CalendarService.block_fuel b step <= fuel)%nat) ->
  CalendarService.all_slots fuel blocks step
  = Some (flat_map (fun b => starts (fst b) step (fits b step)) blocks).
Proof.
  induction blocks as [|[bs be] blocks IH]; intros Hfuel; [reflexivity|].
  cbn [CalendarService.all_slots flat_map].
  rewrite block_slots_run; [|assumption|].
  - rewrite IH by (intros b Hb; apply Hfuel; right; exact Hb).
    reflexivity.
  - specialize (Hfuel (bs, be) (or_introl eq_refl)).
    unfold CalendarService.block_fuel, fits in *. lia.
Qed.

(** The guard of the [while] holds at every emitted start and fails at the
    first start that is not emitted. *)
Lemma fits_guard block step (Hs : 0 < step) :
  (forall k, (k < fits block step)%nat ->
             fst block + Z.of_nat k * step + step <= snd block)
  /\ ~ fst block + Z.of_nat (fits block step) * step + step <= snd block.
Proof.
  destruct block as [bs be]. unfold fits. cbn [fst snd].
  set (q := (be - bs) / step).
  assert (Hq : step * q <= be - bs < step * (q + 1)).
  { unfold q. pose proof (Z.mul_div_le (be - bs) step Hs).
    pose proof (Z.mul_succ_div_gt (be - bs) step Hs). lia. }
  split.
  - intros k Hk. assert (Z.of_nat k + 1 <= q) by lia. nia.
  - destruct (Z_lt_le_dec q 0) as [Hneg|Hpos].
    + replace (Z.to_nat q) with O by lia. nia.
    + rewrite Z2Nat.id by lia. nia.
Qed.

(** A time with a step that is not positive: the [while] never stops once
    its guard holds. *)
Lemma block_slots_diverges step (Hs : step <= 0) fuel :
  forall current_slot block_end,
    current_slot + step <= block_end ->
    CalendarService.block_slots fuel current_slot block_end step = None.
Proof.
  induction fuel as [|fuel IH]; intros cur be Hg;
    cbn [CalendarService.block_slots];
    destruct (Z.leb_spec (cur + step) be); try lia; [reflexivity|].
  rewrite IH by lia. reflexivity.
Qed.
End SlotGeneration.

Section SplitSchedule.
Local Open Scope Z_scope.

Lemma replace_minus dt h1 m1 h2 m2 :
  replace dt h2 m2 - replace dt h1 m1
  = (h2 - h1) * usec_per_hour + (m2 - m1) * usec_per_minute.
Proof. unfold replace. ring. Qed.

(** BARBER_BUSINESS_HOURS_START="09:00;13:00", ..._END="12:00;18:00" *)
Definition split_start : list (Z * Z) := [(9, 0); (13, 0)].
Definition split_end : list (Z * Z) := [(12, 0); (18, 0)].

Lemma split_schedule_slots dt :
  let blocks := CalendarService.time_blocks dt split_start split_end in
  let step := timedelta_minutes 60 in
  CalendarService.all_slots (CalendarService.loop_fuel blocks step) blocks step
  = Some [replace dt 9 0; replace dt 10 0; replace dt 11 0;
          replace dt 13 0; replace dt 14 0; replace dt 15 0;
          replace dt 16 0; replace dt 17 0].
Proof.
  intros blocks step.
  rewrite all_slots_run; [|reflexivity|apply loop_fuel_in].
  unfold blocks, split_start, split_end.
  cbn [CalendarService.time_blocks flat_map fst snd].
  unfold fits. cbn [fst snd]. rewrite !replace_minus.
  replace (Z.to_nat (((12 - 9) * usec_per_hour + (0 - 0) * usec_per_minute) / step))
    with 3%nat by (vm_compute; reflexivity).
  replace (Z.to_nat (((18 - 13) * usec_per_hour + (0 - 0) * usec_per_minute) / step))
    with 5%nat by (vm_compute; reflexivity).
  unfold starts, step. cbn [seq fmap list_fmap app].
  repeat f_equal; unfold replace, timedelta_minutes, usec_per_hour; ring.
Qed.
End SplitSchedule.

(** C3. Slot generation walks the blocks in their order and, in each block,
    emits [block.start], [block.start + duration], ... for as long as
    [current + duration <= block.end]: with a positive duration the two loops
    return, their result is the concatenation over the blocks of the [fits]
    first multiples, the loop guard holds at every emitted start and fails at
    the next one, and a block with [start >= end] contributes nothing.  With
    the blocks (9:00,12:00), (13:00,18:00) and 60 minutes the result is the 8
    starts 9,10,11,13,...,17 o'clock of the day, each slot ending by 12:00 or
    starting at 13:00 or later. *)
Theorem slot_generation_by_blocks
    (blocks : list (Z * Z)) (duration : Z) (fuel : nat) (day : Z) :
  (0 < duration)%Z ->
  (CalendarService.loop_fuel blocks (timedelta_minutes duration) <= fuel)%nat ->
  let step := timedelta_minutes duration in
  CalendarService.all_slots fuel blocks step
  = Some (flat_map (fun b => starts (fst b) step (fits b step)) blocks)
  /\ (forall b, In b blocks ->
        (forall k, (k < fits b step)%nat ->
                   (fst b + Z.of_nat k * step + step <= snd b)%Z)
        /\ ~ (fst b + Z.of_nat (fits b step) * step + step <= snd b)%Z
        /\ ((fst b >= snd b)%Z -> starts (fst b) step (fits b step) = []))
  /\ (let split := CalendarService.time_blocks day split_start split_end in
      let hour := timedelta_minutes 60 in
      exists slots,
        CalendarService.all_slots (CalendarService.loop_fuel split hour) split hour
        = Some slots
        /\ slots = [replace day 9 0; replace day 10 0; replace day 11 0;
                    replace day 13 0; replace day 14 0; replace day 15 0;
                    replace day 16 0; replace day 17 0]
        /\ length slots = 8%nat
        /\ forall s, In s slots ->
             (s + hour <= replace day 12 0)%Z \/ (replace day 13 0 <= s)%Z).
Proof.
  intros Hd Hfuel step.
  assert (Hs : (0 < step)%Z) by (unfold step, timedelta_minutes, usec_per_minute, usec_per_second; lia).
  split; [|split].
  - apply all_slots_run; [exact Hs|].
    intros b Hb. etransitivity; [apply loop_fuel_in, Hb|exact Hfuel].
  - intros b Hb. destruct (fits_guard b step Hs) as [Hin Hout].
    split; [exact Hin|split; [exact Hout|]].
    intros Hge. destruct b as [bs be]. cbn [fst snd] in *.
    rewrite fits_none by lia. reflexivity.
  - intros split hour. eexists. split; [apply split_schedule_slots|].
    split; [reflexivity|split; [reflexivity|]].
    intros s Hin. cbn [In] in Hin.
    unfold hour, replace, timedelta_minutes, usec_per_hour, usec_per_minute,
      usec_per_second.
    repeat destruct Hin as [<-|Hin]; try contradiction;
      unfold replace, usec_per_hour, usec_per_minute, usec_per_second; lia.
Qed.

Lemma slot_generation_by_blocks_witness :
  CalendarService.all_slots 4
    [(0, 3 * usec_per_hour); (13 * usec_per_hour, 12 * usec_per_hour)]%Z
    (timedelta_minutes 60)
  = Some [0; usec_per_hour; 2 * usec_per_hour]%Z.
Proof.
  pose proof (slot_generation_by_blocks
                [(0, 3 * usec_per_hour); (13 * usec_per_hour, 12 * usec_per_hour)]%Z
                60 4 0 ltac:(lia) ltac:(vm_compute; lia)) as [H _].
  exact H.
Defined.

(** ** Conflict filter *)

Section ConflictFilter.
Local Open Scope Z_scope.
Import CalendarService.

(** The half-open intervals [slot, slot + step) and [b0, b1) intersect. *)
Definition overlaps (slot step : Z) (busy : event) : Prop :=
  slot < event_end busy /\ slot + step > event_start busy.

Lemma is_available_false slot slot_end events :
  is_available slot slot_end events = false
  <-> exists busy, In busy events
                   /\ slot < event_end busy /\ slot_end > event_start busy.
Proof.
  induction events as [|ev events IH]; cbn [is_available].
  - split; [discriminate|intros (? & [] & _)].
  - destruct (Z.ltb_spec slot (event_end ev)) as [H1|H1];
      destruct (Z.gtb_spec slot_end (event_start ev)) as [H2|H2];
      cbn [andb].
    1: split; [intros _; exists ev; split; [left; reflexivity|lia]|reflexivity].
    all: rewrite IH; split;
      [ intros (b & Hb & Ho); exists b; split; [right; exact Hb|exact Ho]
      | intros (b & [<-|Hb] & Ho); [lia|exists b; split; assumption] ].
Qed.

Lemma is_available_true slot slot_end events :
  is_available slot slot_end events = true
  <-> forall busy, In busy events ->
                   ~ (slot < event_end busy /\ slot_end > event_start busy).
Proof.
  split.
  - intros Ht busy Hb Ho.
    assert (is_available slot slot_end events = false) as Hf
        by (apply is_available_false; exists busy; split; assumption).
    congruence.
  - intros Hall. destruct (is_available slot slot_end events) eqn:E; [reflexivity|].
    apply is_available_false in E as (busy & Hb & Ho).
    destruct (Hall busy Hb Ho).
Qed.

Lemma available_slots_filter slots step events :
  available_slots slots step events
  = List.filter (fun slot => is_available slot (slot + step) events) slots.
Proof.
  induction slots as [|slot slots IH]; [reflexivity|].
  cbn [available_slots List.filter]. rewrite IH. reflexivity.
Qed.
End ConflictFilter.


(** ** The calendar's availability query *)

Section DayQuery.
Local Open Scope Z_scope.
Import CalendarService.

Definition is_list_call (c : api_call) : Prop :=
  match c with
  | EventsList _ _ => True
  | EventsInsert _ => False
  end.

Lemma timedelta_minutes_pos d : 0 < d -> 0 < timedelta_minutes d.
Proof. unfold timedelta_minutes, usec_per_minute, usec_per_second. lia. Qed.


(** The blocks, hence the query, depend on the day of [date] only. *)
Lemma replace_same_day dt dt' h m :
  date dt = date dt' -> replace dt h m = replace dt' h m.
Proof. unfold replace. intros ->. reflexivity. Qed.

Lemma time_blocks_same_day dt dt' bs be :
  date dt = date dt' -> time_blocks dt bs be = time_blocks dt' bs be.
Proof.
  intros Hday. revert be.
  induction bs as [|[sh sm] bs IH]; intros [|[eh em] be]; try reflexivity.
  cbn [time_blocks]. rewrite IH, !(replace_same_day dt dt' _ _ Hday).
  reflexivity.
Qed.

Lemma get_available_slots_same_day self api dt dt' bs be d :
  date dt = date dt' ->
  get_available_slots self api dt bs be d
  = get_available_slots self api dt' bs be d.
Proof.
  intros Hday. unfold get_available_slots.
  rewrite (time_blocks_same_day dt dt' bs be Hday). reflexivity.
Qed.

Lemma date_replace_midnight dt : date (replace dt 0 0) = date dt.
Proof.
  unfold replace, date. rewrite !Z.mul_0_l, !Z.add_0_r.
  apply Z.div_mul. vm_compute. discriminate.
Qed.

End DayQuery.

(** ** Booking *)

Section Booking.
Local Open Scope Z_scope.
Import CalendarService BookingManager Py.

Definition not_available_result : gmap string value :=
  failure "time_not_available" "Sorry, that time slot is no longer available.".

Definition calendar_error_result : gmap string value :=
  failure "calendar_error" "Sorry, there was an error creating your appointment.".

Lemma any_within_minute_spec t slots :
  any_within_minute t slots = true
  <-> exists slot, In slot slots /\ Z.abs (slot - t) < 60 * usec_per_second.
Proof.
  induction slots as [|slot slots IH]; cbn [any_within_minute].
  - split; [discriminate|intros (? & [] & _)].
  - unfold abs_seconds_lt.
    destruct (Z.ltb_spec (Z.abs (slot - t)) (60 * usec_per_second)) as [H|H].
    + split; [intros _; exists slot; split; [left; reflexivity|exact H]|reflexivity].
    + rewrite IH. split.
      * intros (s & Hs & Hlt). exists s. split; [right; exact Hs|exact Hlt].
      * intros (s & [<-|Hs] & Hlt); [lia|exists s; split; assumption].
Qed.

Lemma error_results_differ : calendar_error_result <> not_available_result.
Proof.
  intros H. apply (f_equal (fun m : gmap string value => m !! "error"%string)) in H.
  vm_compute in H. discriminate.
Qed.

End Booking.

(** ** Failure kinds of a booking *)

Section FailureKinds.
Import CalendarService.

(** The create-event call did not yield a usable identifier. *)
Definition no_event_id (answer : http_result (option string)) : Prop :=
  match answer with
  | Returned (Some id) => id = ""%string
  | Returned None | HttpError => True
  end.


End FailureKinds.

Section BookingCases.
Local Open Scope Z_scope.
Import CalendarService BookingManager.

(** The three ways out of [create_booking], given what the re-validation
    query returned. *)
Lemma create_booking_cases api self user_id customer_name t service_type
    slots calls :
  CalendarService.get_available_slots (calendar_service self) api
    (replace t 0 0) (business_hours_start self) (business_hours_end self)
    (appointment_duration self) = Some (slots, calls) ->
  (any_within_minute t slots = false
   /\ create_booking api self user_id customer_name t service_type
      = Some (not_available_result, calls))
  \/ (any_within_minute t slots = true
      /\ service (calendar_service self) = true
      /\ exists body,
           start_dateTime body = t
           /\ ((exists id,
                  events_insert api body = Returned (Some id)
                  /\ id <> ""%string
                  /\ create_booking api self user_id customer_name t service_type
                     = Some (booked id customer_name service_type t,
                             calls ++ [EventsInsert body]))
               \/ (no_event_id (events_insert api body)
                   /\ create_booking api self user_id customer_name t service_type
                      = Some (calendar_error_result,
                              calls ++ [EventsInsert body])))).
Proof.
  intros Hq. unfold create_booking. rewrite Hq. cbn [mbind option_bind].
  destruct (any_within_minute t slots) eqn:Eany; cbn [negb];
    [right|left; split; reflexivity].
  assert (Hsvc : service (calendar_service self) = true).
  { destruct (service (calendar_service self)) eqn:Es; [reflexivity|].
    unfold CalendarService.get_available_slots in Hq. rewrite Es in Hq.
    cbn [negb] in Hq. injection Hq as <- <-. discriminate Eany. }
  split; [reflexivity|]. split; [exact Hsvc|].
  unfold create_appointment. rewrite Hsvc. cbn [negb].
  set (body := Build_event_body _ _ _ _).
  exists body. split; [reflexivity|].
  destruct (events_insert api body) as [[id|]|] eqn:Eins.
  - destruct (String.eqb_spec id "") as [->|Hid]; cbn [negb].
    + right. split; reflexivity.
    + left. exists id. repeat split; [exact Hid].
  - right. split; [exact I|reflexivity].
  - right. split; [exact I|reflexivity].
Qed.

Lemma booked_is_no_failure id name svc t error message :
  booked id name svc t <> failure error message.
Proof.
  intros H.
  apply (f_equal (fun m : gmap string Py.value => m !! "success"%string)) in H.
  vm_compute in H. discriminate.
Qed.

End BookingCases.


(** ** A concrete shop *)

Section Scenario.
Local Open Scope Z_scope.
Import CalendarService.

(** 09:00-18:00, one-hour appointments, calendar client initialised. *)
Definition shop : BookingManager.t := {|
  BookingManager.calendar_service := {| calendar_id := "primary"; service := true |};
  BookingManager.business_hours_start := [(9, 0)];
  BookingManager.business_hours_end := [(18, 0)];
  BookingManager.appointment_duration := 60 |}.


(** A calendar holding [events] that accepts every insert. *)
Definition calendar_with (events : list event) : remote := {|
  events_list := fun _ _ => Returned events;
  events_insert := fun _ => Returned (Some "evt_1"%string) |}.



(** Day 20000 of the epoch, and times of that day. *)
Definition some_day : Z := 20000 * usec_per_day.
Definition at_hour (h : Z) : Z := replace some_day h 0.

Definition busy_14_to_15 : event :=
  {| event_start := at_hour 14; event_end := at_hour 15 |}.
End Scenario.

(** Business hours 09:00-18:00, duration 60, a busy interval 14:00-15:00: the
    day's slots exclude 14:00 and include 13:00 and 15:00. *)
Example busy_hour_is_excluded :
  CalendarService.get_available_slots (BookingManager.calendar_service shop)
    (calendar_with [busy_14_to_15]) (at_hour 10) [(9, 0)%Z] [(18, 0)%Z] 60
  = Some ([at_hour 9; at_hour 10; at_hour 11; at_hour 12; at_hour 13;
           at_hour 15; at_hour 16; at_hour 17],
          [CalendarService.EventsList (at_hour 9) (at_hour 18)]).
Proof. vm_compute. reflexivity. Qed.





(** ** Discovery *)

Section Discovery.
Local Open Scope Z_scope.
Import BookingManager.

Variable strftime : Z -> string -> string.
Variable api : CalendarService.remote.
Variable self : BookingManager.t.

(** What the calendar query returns for the day of [check_date]. *)
Definition query (check_date : Z)
  : option (list Z * list CalendarService.api_call) :=
  CalendarService.get_available_slots (calendar_service self) api check_date
    (business_hours_start self) (business_hours_end self)
    (appointment_duration self).

Definition day_slots (check_date : Z) : list Z :=
  match query check_date with
  | Some (slots, _) => slots
  | None => []
  end.


Section Frozen.
Variable clock : nat -> Z.
Variable now : Z.
Hypothesis frozen : forall n, clock n = now.


End Frozen.
End Discovery.


Section Witnesses.
Definition plain_strftime (dt : Z) (fmt : string) : string := fmt.
Definition noon_clock (n : nat) : Z := at_hour 12.
End Witnesses.




(** ** Slices of the history *)

Section Slices.
Context {A : Type}.
Implicit Types l k : list A.

Lemma last_n_length n l : length (Py.last_n n l) <= n.
Proof. unfold Py.last_n. rewrite length_drop. lia. Qed.

Lemma last_n_short n l : length l <= n -> Py.last_n n l = l.
Proof.
  intros Hlen. unfold Py.last_n.
  replace (length l - n) with 0 by lia. reflexivity.
Qed.


End Slices.

(** ** One message *)

Section Handler.
Import IntentRouter Py.

Variable strftime : Z -> string -> string.

Lemma booked_success id name svc t :
  truthy (BookingManager.booked id name svc t !! "success"%string) = true.
Proof. reflexivity. Qed.

Lemma booked_no_proposed_time id name svc t :
  BookingManager.booked id name svc t !! "proposed_time"%string = None.
Proof. reflexivity. Qed.

(** A booking record: the dictionary of a successful [create_booking]. *)
Definition booking_record (t : Z) (r : gmap string value) : Prop :=
  exists id, id <> ""%string
             /\ r = BookingManager.booked id "Customer" "Haircut" t.

Definition booking_failure (r : gmap string value) : Prop :=
  r = not_available_result \/ r = calendar_error_result.

Lemma create_booking_result api bm user_id t r calls :
  BookingManager.create_booking api bm user_id "Customer" t "Haircut"
  = Some (r, calls) ->
  booking_record t r \/ booking_failure r.
Proof.
  intros Hrun.
  destruct (CalendarService.get_available_slots
              (BookingManager.calendar_service bm) api (replace t 0 0)
              (BookingManager.business_hours_start bm)
              (BookingManager.business_hours_end bm)
              (BookingManager.appointment_duration bm))
    as [[slots calls0]|] eqn:Hq.
  - destruct (create_booking_cases api bm user_id "Customer" t "Haircut"
                slots calls0 Hq)
      as [[_ H]|(_ & _ & body & _ & [(id & _ & Hid & H)|[_ H]])];
      rewrite H in Hrun; injection Hrun as <- <-.
    + right. left. reflexivity.
    + left. exists id. split; [exact Hid|reflexivity].
    + right. right. reflexivity.
  - unfold BookingManager.create_booking in Hrun. rewrite Hq in Hrun.
    discriminate Hrun.
Qed.

Lemma in_calendar_effects calls e :
  In e (calendar_effects calls) -> exists c, e = Calendar c.
Proof.
  unfold calendar_effects. intros Hin.
  apply list_elem_of_In, list_elem_of_fmap in Hin as (c & -> & _).
  exists c. reflexivity.
Qed.

(** What [_handle_intent] can do to a state. *)
Lemma handle_intent_outcome self w user_id intent message_text st
    response st' log :
  _handle_intent strftime self w user_id intent message_text st
  = Some (response, st', log) ->
  history st' = history st
  /\ (forall context, In (Question context) log ->
        log = [Question context] /\ context = last_n 4 (history st))
  /\ (forall uid t r, In (Booking uid t r) log ->
        uid = user_id
        /\ in_confirmable_stage (stage_of st) = true
        /\ booking_data st !! "proposed_time"%string = Some (PyDatetime t)
        /\ ((booking_record t r /\ stage_of st' = completed
             /\ booking_data st' = r)
            \/ (booking_failure r /\ st' = st
                /\ response = ResponseGenerator.booking_error_response)))
  /\ (stage_of st' = completed ->
      stage_of st = completed
      \/ exists t r, In (Booking user_id t r) log /\ booking_record t r)
  /\ (booking_data st' = booking_data st
      \/ exists t, booking_record t (booking_data st')).
Proof.
  unfold _handle_intent. intros Hrun.
  assert (Hquiet : forall (resp : string) (s : stage),
    Some (resp, set_stage st s, @nil effect) = Some (response, st', log) ->
    s <> completed ->
    history st' = history st
    /\ (forall context, In (Question context) log ->
          log = [Question context] /\ context = last_n 4 (history st))
    /\ (forall uid t r, In (Booking uid t r) log ->
          uid = user_id
          /\ in_confirmable_stage (stage_of st) = true
          /\ booking_data st !! "proposed_time"%string = Some (PyDatetime t)
          /\ ((booking_record t r /\ stage_of st' = completed
               /\ booking_data st' = r)
              \/ (booking_failure r /\ st' = st
                  /\ response = ResponseGenerator.booking_error_response)))
    /\ (stage_of st' = completed ->
        stage_of st = completed
        \/ exists t r, In (Booking user_id t r) log /\ booking_record t r)
    /\ (booking_data st' = booking_data st
        \/ exists t, booking_record t (booking_data st'))).
  { intros resp s [= <- <- <-] Hs.
    split; [reflexivity|]. split; [intros ? []|]. split; [intros ? ? ? []|].
    split; [intros Hc; destruct (Hs Hc)|left; reflexivity]. }
  destruct (String.eqb intent "greeting");
    [apply (Hquiet _ _ Hrun); discriminate|].
  destruct (String.eqb intent "booking_inquiry").
  { destruct (_extract_date_time w) as [date_info|];
      [|apply (Hquiet _ _ Hrun); discriminate].
    destruct (BookingManager.get_available_slots strftime (clock w) (api w)
                (booking_manager self) date_info 3) as [[slots calls]|];
      [|discriminate Hrun].
    cbn [mbind option_bind] in Hrun. injection Hrun as <- <- <-.
    assert (Hcal : forall e, In e (calendar_effects calls) ->
              exists c, e = Calendar c)
      by (intros e; apply in_calendar_effects).
    split; [reflexivity|].
    split; [intros context Hin; destruct (Hcal _ Hin) as (c & Hc);
            discriminate Hc|].
    split; [intros uid t r Hin; destruct (Hcal _ Hin) as (c & Hc);
            discriminate Hc|].
    split; [intros Hc; discriminate Hc|left; reflexivity]. }
  destruct (String.eqb intent "confirm_booking"
            && in_confirmable_stage (stage_of st)) eqn:Econfirm.
  { apply andb_prop in Econfirm as [_ Hstage].
    destruct (truthy (_extract_confirmed_time message_text st)) eqn:Etruthy;
      [|apply (Hquiet _ _ Hrun); discriminate].
    destruct (_extract_confirmed_time message_text st) as [[| | |t]|] eqn:Eslot;
      try discriminate Hrun.
    assert (Hproposed : booking_data st !! "proposed_time"%string
                        = Some (PyDatetime t)).
    { unfold _extract_confirmed_time in Eslot.
      destruct (existsb _ confirmation_words); [exact Eslot|discriminate]. }
    destruct (BookingManager.create_booking (api w) (booking_manager self)
                user_id "Customer" t "Haircut") as [[r calls]|] eqn:Hbook;
      [|discriminate Hrun].
    cbn [mbind option_bind] in Hrun.
    assert (Hlog : forall e, In e (calendar_effects calls ++ [Booking user_id t r]) ->
              e = Booking user_id t r \/ exists c, e = Calendar c).
    { intros e Hin. apply in_app_or in Hin as [Hin|[<-|[]]].
      - right. exact (in_calendar_effects _ _ Hin).
      - left. reflexivity. }
    destruct (create_booking_result _ _ _ _ _ _ Hbook)
      as [Hrecord|Hfailure].
    - destruct Hrecord as (id & Hid & ->). rewrite booked_success in Hrun.
      injection Hrun as <- <- <-. cbn.
      split; [reflexivity|]. split.
      { intros context Hin. destruct (Hlog _ Hin) as [Hc|(c & Hc)]; discriminate Hc. }
      split.
      { intros uid t' r' Hin.
        destruct (Hlog _ Hin) as [Hc|(c & Hc)]; [|discriminate Hc].
        injection Hc as -> -> ->.
        repeat split; try assumption.
        left. repeat split. exists id. split; [exact Hid|reflexivity]. }
      split.
      { intros _. right. exists t, (BookingManager.booked id "Customer" "Haircut" t).
        split; [apply in_or_app; right; left; reflexivity|].
        exists id. split; [exact Hid|reflexivity]. }
      right. exists t, id. split; [exact Hid|reflexivity].
    - assert (Hnot : truthy (r !! "success"%string) = false)
        by (destruct Hfailure as [->| ->]; reflexivity).
      rewrite Hnot in Hrun. injection Hrun as <- <- <-.
      split; [reflexivity|]. split.
      { intros context Hin. destruct (Hlog _ Hin) as [Hc|(c & Hc)]; discriminate Hc. }
      split.
      { intros uid t' r' Hin.
        destruct (Hlog _ Hin) as [Hc|(c & Hc)]; [|discriminate Hc].
        injection Hc as -> -> ->.
        repeat split; try assumption.
        right. repeat split. exact Hfailure. }
      split; [intros Hc; left; exact Hc|left; reflexivity]. }
  destruct (String.eqb intent "cancel_booking");
    [apply (Hquiet _ _ Hrun); discriminate|].
  destruct (String.eqb intent "general_question").
  { unfold _answer_general_question in Hrun.
    destruct (answer_reply w); injection Hrun as <- <- <-;
      (split; [reflexivity|]);
      (split; [intros context [[= <-]|[]]; split; reflexivity|]);
      (split; [intros uid t r [Hc|[]]; discriminate Hc|]);
      (split; [intros Hc; left; exact Hc|left; reflexivity]). }
  injection Hrun as <- <- <-.
  split; [reflexivity|]. split; [intros ? []|]. split; [intros ? ? ? []|].
  split; [intros Hc; left; exact Hc|left; reflexivity].
Qed.
End Handler.

Section Routing.
Import IntentRouter Py.
Local Open Scope Z_scope.

Variable strftime : Z -> string -> string.

(** The state [route_message] works on: the stored one, or a fresh one. *)
Definition state_of (self : IntentRouter.t) (user_id : string) : state :=
  match conversation_state self !! user_id with
  | Some st => st
  | None => new_state
  end.

Definition user_turn (message_text : string) : turn :=
  {| turn_role := user; content := message_text |}.

Definition assistant_turn (response : string) : turn :=
  {| turn_role := assistant; content := response |}.




Lemma state_of_insert self user_id st rg bm v :
  state_of {| response_generator := rg; booking_manager := bm;
              conversation_state := <[user_id := st]> (conversation_state self) |} v
  = if decide (user_id = v) then st else state_of self v.
Proof.
  unfold state_of. cbn [conversation_state].
  rewrite lookup_insert. destruct (decide (user_id = v)); reflexivity.
Qed.

(** What one [route_message] does to the store. *)
Lemma route_message_outcome self w user_id message_text response self' log :
  route_message strftime self w user_id message_text
  = Some (response, self', log) ->
  exists st',
    _handle_intent strftime self w user_id (_detect_intent w) message_text
      (set_history (state_of self user_id)
         (history (state_of self user_id) ++ [user_turn message_text]))
    = Some (response, st', log)
    /\ response_generator self' = response_generator self
    /\ booking_manager self' = booking_manager self
    /\ (forall v, v <> user_id -> state_of self' v = state_of self v)
    /\ (forall v, v <> user_id ->
          conversation_state self' !! v = conversation_state self !! v)
    /\ is_Some (conversation_state self' !! user_id)
    /\ stage_of (state_of self' user_id) = stage_of st'
    /\ booking_data (state_of self' user_id) = booking_data st'
    /\ history (state_of self' user_id)
       = last_n 10 (history (state_of self user_id)
                    ++ [user_turn message_text; assistant_turn response]).
Proof.
  unfold route_message. fold (state_of self user_id).
  fold (user_turn message_text).
  destruct (_handle_intent strftime self w user_id (_detect_intent w)
              message_text _) as [[[resp st'] lg]|] eqn:Hhandle;
    [|discriminate].
  cbn [mbind option_bind]. fold (assistant_turn resp).
  intros [= <- <- <-]. exists st'. split; [reflexivity|].
  destruct (handle_intent_outcome strftime _ _ _ _ _ _ _ _ _ Hhandle)
    as (Hhist & _).
  cbn [history set_history] in Hhist.
  split; [reflexivity|]. split; [reflexivity|].
  split; [intros v Hv; rewrite state_of_insert;
          destruct (decide (user_id = v)); [congruence|reflexivity]|].
  split; [intros v Hv; cbn [conversation_state];
          rewrite lookup_insert_ne by congruence; reflexivity|].
  split; [cbn [conversation_state]; rewrite lookup_insert_eq; eexists; reflexivity|].
  rewrite state_of_insert. destruct (decide (user_id = user_id)); [|congruence].
  cbn [history set_history].
  destruct (Nat.ltb_spec 10 (length (history st' ++ [assistant_turn resp])))
    as [Hlong|Hshort]; cbn [stage_of booking_data history set_history];
    (split; [reflexivity|]); (split; [reflexivity|]);
    rewrite Hhist, <- app_assoc; cbn [app]; [reflexivity|].
  rewrite last_n_short; [reflexivity|].
  rewrite Hhist, <- app_assoc in Hshort. exact Hshort.
Qed.
End Routing.

(** ** A dialogue: messages in arrival order *)

Section Dialogue.
Import IntentRouter Py.

Variable strftime : Z -> string -> string.

(** An inbound message with what the collaborators answer while it is
    handled. *)
Record message := {
  sender : string;
  text : string;
  env : world
}.

(** What a run leaves behind, in order: the turns appended to a subject's
    history and the calls made for that subject. *)
Inductive event :=
| Said (user_id : string) (t : turn)
| Did (user_id : string) (e : effect).

Definition events_of (m : message) (response : string) (log : list effect)
  : list event :=
  Said (sender m) (user_turn (text m))
    :: (Did (sender m) <$> log) ++ [Said (sender m) (assistant_turn response)].

(** [route_message] for each message in turn. *)
Fixpoint route_all (self : IntentRouter.t) (messages : list message)
  : option (IntentRouter.t * list event) :=
  match messages with
  | [] => Some (self, [])
  | m :: rest =>
      '(response, self', log) ←
        route_message strftime self (env m) (sender m) (text m);
      '(self'', trace) ← route_all self' rest;
      Some (self'', events_of m response log ++ trace)
  end.

(** The turns of one subject, in arrival order. *)
Fixpoint said (user_id : string) (trace : list event) : list turn :=
  match trace with
  | [] => []
  | Said v t :: rest =>
      if decide (v = user_id) then t :: said user_id rest else said user_id rest
  | Did _ _ :: rest => said user_id rest
  end.

(** [IntentRouter(response_generator, calendar_service)] *)
Definition fresh (rg : ResponseGenerator.t) (bm : BookingManager.t)
  : IntentRouter.t :=
  {| response_generator := rg; booking_manager := bm; conversation_state := ∅ |}.

Lemma said_app user_id trace trace' :
  said user_id (trace ++ trace') = said user_id trace ++ said user_id trace'.
Proof.
  induction trace as [|[v t|v e] trace IH]; cbn [said app]; [reflexivity| |exact IH].
  destruct (decide (v = user_id)); [cbn [app]; f_equal|]; exact IH.
Qed.

Lemma said_did user_id v (log : list effect) :
  said user_id (Did v <$> log) = [].
Proof. induction log as [|e log IH]; [reflexivity|exact IH]. Qed.

Lemma said_events_of user_id m response log :
  said user_id (events_of m response log)
  = if decide (sender m = user_id)
    then [user_turn (text m); assistant_turn response]
    else [].
Proof.
  unfold events_of. cbn [said]. rewrite said_app, said_did. cbn [said app].
  destruct (decide (sender m = user_id)); reflexivity.
Qed.




Definition no_proposal (self : IntentRouter.t) : Prop :=
  forall user_id,
    booking_data (state_of self user_id) !! "proposed_time"%string = None.

Lemma no_proposal_fresh rg bm : no_proposal (fresh rg bm).
Proof. intros v. reflexivity. Qed.

End Dialogue.


Section Chat.
Import IntentRouter.

Definition la_barber : ResponseGenerator.t :=
  {| ResponseGenerator.barber_name := "our barber" |}.

(** What the collaborators answer: the classifier says [intent], the date
    extractor [when], the calendar is [calendar], it is noon. *)
Definition answers (intent : string) (when : option Z)
    (calendar : CalendarService.remote) : world := {|
  intent_reply := Some intent;
  date_reply := when;
  answer_reply := Some "Cuts are $30-50. Want to book?"%string;
  pick := 0;
  clock := noon_clock;
  api := calendar |}.

Definition asks (user_id question : string) : message := {|
  sender := user_id;
  text := question;
  env := answers "general_question" None (calendar_with []) |}.

End Chat.


(** ** Stages and bookings *)

Section Stages.
Import IntentRouter Py.

Variable strftime : Z -> string -> string.

(** What one [route_message] does to a subject's stage and booking data. *)
Lemma route_message_bookings self w user_id message_text response self' log :
  route_message strftime self w user_id message_text
  = Some (response, self', log) ->
  (forall v, stage_of (state_of self' v) = completed ->
     stage_of (state_of self v) = completed
     \/ (v = user_id
         /\ exists t r, In (Booking user_id t r) log /\ booking_record t r))
  /\ (forall uid t r, In (Booking uid t r) log ->
        uid = user_id
        /\ in_confirmable_stage (stage_of (state_of self user_id)) = true
        /\ booking_data (state_of self user_id) !! "proposed_time"%string
           = Some (PyDatetime t)
        /\ ((booking_record t r
             /\ stage_of (state_of self' user_id) = completed)
            \/ (booking_failure r
                /\ stage_of (state_of self' user_id)
                   = stage_of (state_of self user_id)
                /\ response = ResponseGenerator.booking_error_response)))
  /\ (forall v, booking_data (state_of self' v) = booking_data (state_of self v)
                \/ exists t, booking_record t (booking_data (state_of self' v))).
Proof.
  intros Hrun.
  destruct (route_message_outcome strftime _ _ _ _ _ _ _ Hrun)
    as (st' & Hhandle & _ & _ & Hother & _ & _ & Hstage & Hdata & _).
  destruct (handle_intent_outcome strftime _ _ _ _ _ _ _ _ _ Hhandle)
    as (_ & _ & Hbooking & Hcompleted & Hkept).
  cbn [stage_of booking_data set_history] in Hbooking, Hcompleted, Hkept.
  split; [|split].
  - intros v Hv. destruct (decide (v = user_id)) as [->|Hne].
    + rewrite Hstage in Hv. destruct (Hcompleted Hv) as [Hwas|Hbooked];
        [left; exact Hwas|right; split; [reflexivity|exact Hbooked]].
    + left. rewrite Hother in Hv by exact Hne. exact Hv.
  - intros uid t r Hin.
    destruct (Hbooking uid t r Hin) as (-> & Hconfirmable & Hproposed & Hcases).
    split; [reflexivity|]. split; [exact Hconfirmable|].
    split; [exact Hproposed|]. rewrite Hstage.
    destruct Hcases as [(Hrecord & Hdone & _)|(Hfailure & -> & Hreply)].
    + left. split; assumption.
    + right. split; [exact Hfailure|split; [reflexivity|exact Hreply]].
  - intros v. destruct (decide (v = user_id)) as [->|Hne].
    + rewrite Hdata. exact Hkept.
    + left. rewrite Hother by exact Hne. reflexivity.
Qed.



(** The stores the router can be in: from a fresh router, by
    [route_message] and [clear_conversation]. *)
Inductive reachable (rg : ResponseGenerator.t) (bm : BookingManager.t)
  : IntentRouter.t -> Prop :=
| reachable_fresh : reachable rg bm (fresh rg bm)
| reachable_route self w user_id message_text response self' log :
    reachable rg bm self ->
    route_message strftime self w user_id message_text
    = Some (response, self', log) ->
    reachable rg bm self'
| reachable_clear self user_id :
    reachable rg bm self ->
    reachable rg bm (clear_conversation self user_id).

Lemma state_of_clear self user_id v :
  state_of (clear_conversation self user_id) v
  = if decide (user_id = v) then new_state else state_of self v.
Proof.
  unfold state_of, clear_conversation. cbn [conversation_state].
  rewrite lookup_delete. destruct (decide (user_id = v)); reflexivity.
Qed.

Lemma reachable_invariant rg bm self :
  reachable rg bm self ->
  no_proposal self /\ forall v, stage_of (state_of self v) <> completed.
Proof.
  induction 1 as [|self w user_id message_text response self' log _ [IHdata IHstage] Hrun
                  |self user_id _ [IHdata IHstage]].
  - split; [apply no_proposal_fresh|intros v; discriminate].
  - destruct (route_message_bookings _ _ _ _ _ _ _ Hrun)
      as (Hstage & Hbooking & Hdata).
    assert (Hnobook : forall uid t r, ~ In (Booking uid t r) log).
    { intros uid t r Hin. destruct (Hbooking uid t r Hin) as (_ & _ & Hsome & _).
      rewrite (IHdata user_id) in Hsome. discriminate Hsome. }
    split.
    + intros v. destruct (Hdata v) as [->|(t & id & _ & ->)];
        [apply IHdata|reflexivity].
    + intros v Hv.
      destruct (Hstage v Hv) as [Hwas|(_ & t & r & Hin & _)];
        [exact (IHstage v Hwas)|exact (Hnobook _ _ _ Hin)].
  - split; intros v; unfold no_proposal in IHdata; rewrite state_of_clear;
      destruct (decide (user_id = v));
      [reflexivity|apply IHdata|discriminate|apply IHstage].
Qed.

Lemma extract_without_proposal message_text st :
  booking_data st !! "proposed_time"%string = None ->
  _extract_confirmed_time message_text st = None.
Proof.
  intros Hnone. unfold _extract_confirmed_time. rewrite Hnone.
  destruct (existsb _ confirmation_words); reflexivity.
Qed.

(** A confirmation without a proposed time asks to clarify. *)
Lemma confirm_without_proposal self w user_id message_text st :
  booking_data st !! "proposed_time"%string = None ->
  in_confirmable_stage (stage_of st) = true ->
  _handle_intent strftime self w user_id "confirm_booking" message_text st
  = Some (ResponseGenerator.clarify_time_response (pick w),
          set_stage st awaiting_confirmation, []).
Proof.
  intros Hnone Hstage. unfold _handle_intent.
  rewrite (extract_without_proposal _ _ Hnone), Hstage. reflexivity.
Qed.
End Stages.

(** C5. In every store the router can reach, a subject's [booking_data] has
    no key "proposed_time" — nor has the dictionary of a successful booking,
    the only value it is ever overwritten with.  So [_extract_confirmed_time]
    returns [None] whatever the message, the stage is never [completed], and
    a [confirm_booking] intent in stage [showing_availability] or
    [awaiting_confirmation] is answered with the request to clarify, makes no
    call, and leaves the stage at [awaiting_confirmation]. *)
Theorem proposed_time_is_never_set
    (strftime : Z -> string -> string)
    (rg : ResponseGenerator.t) (bm : BookingManager.t)
    (self : IntentRouter.t) (user_id : string) (st : IntentRouter.state) :
  reachable strftime rg bm self ->
  IntentRouter.conversation_state self !! user_id = Some st ->
  IntentRouter.booking_data st !! "proposed_time"%string = None
  /\ (forall id name svc t,
        BookingManager.booked id name svc t !! "proposed_time"%string = None)
  /\ (forall message_text,
        IntentRouter._extract_confirmed_time message_text st = None)
  /\ IntentRouter.stage_of st <> IntentRouter.completed
  /\ (forall w message_text,
        IntentRouter._detect_intent w = "confirm_booking"%string ->
        IntentRouter.in_confirmable_stage (IntentRouter.stage_of st) = true ->
        exists self',
          IntentRouter.route_message strftime self w user_id message_text
          = Some (ResponseGenerator.clarify_time_response (IntentRouter.pick w),
                  self', [])
          /\ IntentRouter.stage_of (state_of self' user_id)
             = IntentRouter.awaiting_confirmation
          /\ reachable strftime rg bm self').
Proof.
  intros Hreach Hlookup.
  destruct (reachable_invariant strftime rg bm self Hreach) as [Hdata Hstage].
  assert (Hst : state_of self user_id = st)
    by (unfold state_of; rewrite Hlookup; reflexivity).
  specialize (Hdata user_id). specialize (Hstage user_id).
  rewrite Hst in Hdata, Hstage.
  split; [exact Hdata|]. split; [intros; apply booked_no_proposed_time|].
  split; [intros m; apply extract_without_proposal, Hdata|].
  split; [exact Hstage|].
  intros w m Hintent Hconfirmable.
  assert (Hrun : exists self',
    IntentRouter.route_message strftime self w user_id m
    = Some (ResponseGenerator.clarify_time_response (IntentRouter.pick w),
            self', [])).
  { unfold IntentRouter.route_message. rewrite Hlookup, Hintent.
    rewrite confirm_without_proposal by assumption.
    eexists. reflexivity. }
  destruct Hrun as (self' & Hrun). exists self'. split; [exact Hrun|].
  split; [|exact (reachable_route strftime rg bm _ _ _ _ _ _ _ Hreach Hrun)].
  destruct (route_message_outcome strftime _ _ _ _ _ _ _ Hrun)
    as (st' & Hhandle & _ & _ & _ & _ & _ & Hstage' & _).
  rewrite Hst, Hintent, confirm_without_proposal in Hhandle by assumption.
  injection Hhandle as <-. exact Hstage'.
Qed.

Section Inquiry.
Import IntentRouter.

(** "tomorrow at 3pm", classified as a booking inquiry. *)
Definition inquiry : message := {|
  sender := "17841400000";
  text := "can I come in tomorrow at 3pm?";
  env := answers "booking_inquiry" (Some (at_hour 15)) (calendar_with [busy_14_to_15]) |}.

Definition after_inquiry : IntentRouter.t :=
  match route_all plain_strftime (fresh la_barber shop) [inquiry] with
  | Some (self', _) => self'
  | None => fresh la_barber shop
  end.
End Inquiry.

Lemma proposed_time_is_never_set_witness :
  exists st self',
    IntentRouter.conversation_state after_inquiry !! "17841400000"%string = Some st
    /\ IntentRouter.stage_of st = IntentRouter.showing_availability
    /\ IntentRouter.route_message plain_strftime after_inquiry
         (answers "confirm_booking" None (calendar_with [busy_14_to_15]))
         "17841400000" "yes, book it"
       = Some (ResponseGenerator.clarify_time_response 0, self', [])
    /\ IntentRouter.stage_of (state_of self' "17841400000")
       = IntentRouter.awaiting_confirmation.
Proof.
  assert (Hreach : reachable plain_strftime la_barber shop after_inquiry).
  { eapply (reachable_route plain_strftime la_barber shop
              (fresh la_barber shop) (env inquiry) (sender inquiry) (text inquiry));
      [apply reachable_fresh|vm_compute; reflexivity]. }
  destruct (IntentRouter.conversation_state after_inquiry !! "17841400000"%string)
    as [st|] eqn:Hlookup; [|vm_compute in Hlookup; discriminate Hlookup].
  destruct (proposed_time_is_never_set plain_strftime la_barber shop
              after_inquiry "17841400000" st Hreach Hlookup)
    as (_ & _ & _ & _ & Hconfirm).
  assert (Hstage : IntentRouter.stage_of st = IntentRouter.showing_availability)
    by (vm_compute in Hlookup; injection Hlookup as <-; reflexivity).
  destruct (Hconfirm (answers "confirm_booking" None (calendar_with [busy_14_to_15]))
              "yes, book it"%string eq_refl)
    as (self' & Hrun & Hafter & _); [rewrite Hstage; reflexivity|].
  exists st, self'. repeat split; assumption.
Defined.


Section Confirmation.
Import IntentRouter.

(** A store as the handler would need it to book: the subject awaits
    confirmation and a time has been proposed. *)
Definition proposed (s : stage) (t : Z) : state := {|
  stage_of := s;
  history := [];
  booking_data := {[ "proposed_time"%string := Py.PyDatetime t ]} |}.

Definition with_proposal (s : stage) (t : Z) : IntentRouter.t := {|
  response_generator := la_barber;
  booking_manager := shop;
  conversation_state := {[ "17841400000"%string := proposed s t ]} |}.

Definition confirms (calendar : CalendarService.remote) : message := {|
  sender := "17841400000";
  text := "Yes, that works";
  env := answers "confirm_booking" None calendar |}.
End Confirmation.



(** * Further properties of the code *)

(** ** The day query, slot by slot *)

Section DaySlots.
Local Open Scope Z_scope.
Import CalendarService.

(** A start the generator emits for [block]: aligned to the block's start and
    ending within the block. *)
Definition fits_in (block : Z * Z) (step s : Z) : Prop :=
  exists k : nat, s = fst block + Z.of_nat k * step /\ s + step <= snd block.

Lemma in_starts_iff block step s :
  0 < step ->
  In s (starts (fst block) step (fits block step)) <-> fits_in block step s.
Proof.
  intros Hs. destruct (fits_guard block step Hs) as [Hin Hout].
  unfold starts, fits_in. split.
  - intros H. apply list_elem_of_In, list_elem_of_fmap in H as (k & -> & Hk).
    apply list_elem_of_In, in_seq in Hk. exists k. split; [reflexivity|].
    apply Hin. lia.
  - intros (k & -> & Hfit).
    apply list_elem_of_In, list_elem_of_fmap. exists k. split; [reflexivity|].
    apply list_elem_of_In, in_seq. split; [lia|]. cbn.
    destruct (Nat.lt_ge_cases k (fits block step)) as [Hlt|Hge]; [exact Hlt|].
    exfalso. apply Hout. nia.
Qed.

(** The query, unfolded: what it read and what it returned. *)
Lemma get_available_slots_shape self api dt bs be d slots calls :
  get_available_slots self api dt bs be d = Some (slots, calls) ->
  (slots = [] /\ calls = []
   /\ (service self = false \/ length bs <> length be
       \/ time_blocks dt bs be = []))
  \/ (service self = true /\ length bs = length be
      /\ exists first_block last_block,
           head (time_blocks dt bs be) = Some first_block
           /\ last (time_blocks dt bs be) = Some last_block
           /\ calls = [EventsList (fst first_block) (snd last_block)]
           /\ ((events_list api (fst first_block) (snd last_block) = HttpError
                /\ slots = [])
               \/ exists events candidates,
                    events_list api (fst first_block) (snd last_block)
                    = Returned events
                    /\ all_slots
                         (loop_fuel (time_blocks dt bs be) (timedelta_minutes d))
                         (time_blocks dt bs be) (timedelta_minutes d)
                       = Some candidates
                    /\ slots = available_slots candidates
                                 (timedelta_minutes d) events)).
Proof.
  unfold get_available_slots.
  destruct (service self); cbn [negb];
    [|intros [= <- <-]; left; repeat split; left; reflexivity].
  destruct (Nat.eqb_spec (length bs) (length be)) as [Hlen|Hlen]; cbn [negb];
    [|intros [= <- <-]; left; repeat split; right; left; exact Hlen].
  destruct (time_blocks dt bs be) as [|[day_start x] blocks] eqn:Eb;
    [intros [= <- <-]; left; repeat split; right; right; reflexivity|].
  destruct (last ((day_start, x) :: blocks)) as [[y day_end]|] eqn:El;
    [|intros [= <- <-]; left; repeat split; exfalso;
      apply last_None in El; discriminate El].
  intros Hrun. right. split; [reflexivity|]. split; [exact Hlen|].
  exists (day_start, x), (y, day_end). split; [reflexivity|].
  split; [reflexivity|]. cbn [fst snd].
  destruct (events_list api day_start day_end) as [events|].
  - destruct (all_slots _ _ _) as [candidates|] eqn:Ec; [|discriminate Hrun].
    injection Hrun as <- <-. split; [reflexivity|]. right.
    exists events, candidates. repeat split.
  - injection Hrun as <- <-. split; [reflexivity|]. left. split; reflexivity.
Qed.
End DaySlots.



(** ** Order of the slots *)

Section SlotOrder.
Local Open Scope Z_scope.
Import CalendarService.

(** The configured blocks follow one another: each ends before any later one
    starts. *)
Definition blocks_in_order (blocks : list (Z * Z)) : Prop :=
  StronglySorted (fun b b' => snd b <= fst b') blocks.

Lemma starts_bounds block_start step n s :
  0 < step -> In s (starts block_start step n) -> block_start <= s.
Proof.
  intros Hs H. unfold starts in H.
  apply list_elem_of_In, list_elem_of_fmap in H as (k & -> & _). nia.
Qed.

Lemma starts_increasing step (Hs : 0 < step) n :
  forall block_start, StronglySorted Z.lt (starts block_start step n).
Proof.
  induction n as [|n IH]; intros b; [constructor|].
  rewrite starts_S. constructor; [apply IH|].
  apply Forall_forall. intros s Hin.
  apply list_elem_of_In, (starts_bounds _ step n s Hs) in Hin. lia.
Qed.

Lemma sorted_app (l1 l2 : list Z) :
  StronglySorted Z.lt l1 -> StronglySorted Z.lt l2 ->
  (forall x y, In x l1 -> In y l2 -> x < y) ->
  StronglySorted Z.lt (l1 ++ l2).
Proof.
  intros H1 H2 Hcross. induction H1 as [|x l1 Hsorted IH Hall]; [exact H2|].
  cbn [app]. constructor.
  - apply IH. intros a b Ha Hb. apply Hcross; [right; exact Ha|exact Hb].
  - apply Forall_app. split; [exact Hall|].
    apply Forall_forall. intros y Hy. apply Hcross; [left; reflexivity|].
    apply list_elem_of_In, Hy.
Qed.

Lemma sorted_filter (f : Z -> bool) (l : list Z) :
  StronglySorted Z.lt l -> StronglySorted Z.lt (List.filter f l).
Proof.
  induction 1 as [|x l Hsorted IH Hall]; [constructor|].
  cbn [List.filter]. destruct (f x); [|exact IH].
  constructor; [exact IH|].
  apply Forall_forall. intros y Hy.
  apply list_elem_of_In, filter_In in Hy as [Hy _].
  rewrite Forall_forall in Hall. apply Hall, list_elem_of_In, Hy.
Qed.

Lemma candidates_increasing step (Hs : 0 < step) blocks :
  blocks_in_order blocks ->
  StronglySorted Z.lt
    (flat_map (fun b => starts (fst b) step (fits b step)) blocks).
Proof.
  induction 1 as [|block blocks Hsorted IH Hall]; [constructor|].
  cbn [flat_map]. apply sorted_app; [apply starts_increasing, Hs|exact IH|].
  intros x y Hx Hy.
  apply (in_starts_iff block step x Hs) in Hx as (k & _ & Hfit).
  apply in_flat_map in Hy as (later & Hlater & Hy).
  apply (starts_bounds _ step _ y Hs) in Hy.
  rewrite Forall_forall in Hall.
  specialize (Hall later (proj2 (list_elem_of_In _ _) Hlater)).
  cbn beta in Hall. lia.
Qed.
End SlotOrder.

(** X2. When the configured blocks follow one another, the day query returns
    its slots in strictly increasing order: earliest first, no slot twice. *)
Theorem day_slots_come_in_order
    (self : CalendarService.t) (api : CalendarService.remote) (dt : Z)
    (bs be : list (Z * Z)) (d : Z)
    (slots : list Z) (calls : list CalendarService.api_call) :
  (0 < d)%Z ->
  blocks_in_order (CalendarService.time_blocks dt bs be) ->
  CalendarService.get_available_slots self api dt bs be d = Some (slots, calls) ->
  StronglySorted Z.lt slots /\ NoDup slots.
Proof.
  intros Hd Horder Hrun.
  pose proof (timedelta_minutes_pos d Hd) as Hs.
  assert (Hsorted : StronglySorted Z.lt slots).
  { destruct (get_available_slots_shape _ _ _ _ _ _ _ _ Hrun)
      as [(-> & _)|(_ & _ & fb & lb & _ & _ & _ & [[_ ->]|Hread])];
      try constructor.
    destruct Hread as (events & candidates & _ & Hcand & ->).
    rewrite all_slots_run in Hcand by (auto using loop_fuel_in).
    injection Hcand as <-.
    rewrite available_slots_filter.
    apply sorted_filter, candidates_increasing; assumption. }
  split; [exact Hsorted|].
  clear Hrun. induction Hsorted as [|x l Hsorted IH Hall]; constructor;
    [|exact IH].
  intros Hin. rewrite Forall_forall in Hall.
  specialize (Hall x Hin). lia.
Qed.

Lemma day_slots_come_in_order_witness :
  exists slots calls,
    CalendarService.get_available_slots (BookingManager.calendar_service shop)
      (calendar_with [busy_14_to_15]) (at_hour 3) split_start split_end 60
    = Some (slots, calls)
    /\ StronglySorted Z.lt slots.
Proof.
  destruct (CalendarService.get_available_slots
              (BookingManager.calendar_service shop)
              (calendar_with [busy_14_to_15]) (at_hour 3) split_start split_end 60)
    as [[slots calls]|] eqn:Hrun; [|vm_compute in Hrun; discriminate Hrun].
  exists slots, calls. split; [reflexivity|].
  apply (day_slots_come_in_order (BookingManager.calendar_service shop)
           (calendar_with [busy_14_to_15]) (at_hour 3) split_start split_end 60
           slots calls ltac:(reflexivity)
           ltac:(repeat constructor; vm_compute; discriminate) Hrun).
Defined.

(** ** logic/booking.py: business hours *)

Module BusinessHours.
Import Datetime.
Local Open Scope Z_scope.

(** [dt.hour], [dt.minute] *)
Definition hour (dt : Z) : Z := (dt mod usec_per_day) / usec_per_hour.
Definition minute (dt : Z) : Z := (dt mod usec_per_hour) / usec_per_minute.

(** [for start_str, end_str in zip(start_times, end_times)] with its early
    [return True]. *)
Fixpoint in_some_block (time_minutes : Z) (start_times end_times : list (Z * Z))
  : bool :=
  match start_times, end_times with
  | (start_hour, start_minute) :: ss, (end_hour, end_minute) :: es =>
      let start_minutes := start_hour * 60 + start_minute in
      let end_minutes := end_hour * 60 + end_minute in
      if (start_minutes <=? time_minutes) && (time_minutes <? end_minutes)
      then true
      else in_some_block time_minutes ss es
  | _, _ => false
  end.

Definition is_business_hours (self : BookingManager.t) (check_time : Z) : bool :=
  let time_minutes := hour check_time * 60 + minute check_time in
  in_some_block time_minutes (BookingManager.business_hours_start self)
    (BookingManager.business_hours_end self).
End BusinessHours.

Section WithinHours.
Local Open Scope Z_scope.
Import BusinessHours.

(** An hour and minute that [datetime.replace] accepts. *)
Definition clock_time (hm : Z * Z) : Prop :=
  0 <= fst hm <= 23 /\ 0 <= snd hm <= 59.

Lemma minutes_of_day day off :
  0 <= off < usec_per_day ->
  hour (day * usec_per_day + off) * 60 + minute (day * usec_per_day + off)
  = off / usec_per_minute.
Proof.
  intros Hoff. unfold hour, minute.
  replace (day * usec_per_day + off) with (off + day * usec_per_day) by ring.
  rewrite Z.mod_add by (vm_compute; discriminate).
  rewrite (Z.mod_small off usec_per_day) by exact Hoff.
  replace (off + day * usec_per_day)
    with (off + (day * 24) * usec_per_hour) by (unfold usec_per_day; ring).
  rewrite Z.mod_add by (vm_compute; discriminate).
  rewrite (Z.div_mod off usec_per_hour) at 3 by (vm_compute; discriminate).
  replace (usec_per_hour * (off / usec_per_hour) + off mod usec_per_hour)
    with (off mod usec_per_hour + (off / usec_per_hour * 60) * usec_per_minute)
    by (unfold usec_per_hour; ring).
  rewrite Z.div_add by (vm_compute; discriminate). ring.
Qed.

Lemma replace_offset dt h m :
  replace dt h m = date dt * usec_per_day + (h * 60 + m) * usec_per_minute.
Proof. unfold replace, usec_per_hour. ring. Qed.

Lemma in_block_is_open dt x :
  forall bs be block,
    Forall clock_time bs -> Forall clock_time be ->
    In block (CalendarService.time_blocks dt bs be) ->
    fst block <= x < snd block ->
    in_some_block (hour x * 60 + minute x) bs be = true.
Proof.
  induction bs as [|[sh sm] bs IH]; intros [|[eh em] be] block Hbs Hbe Hin Hx;
    try (cbn [CalendarService.time_blocks In] in Hin; contradiction).
  cbn [CalendarService.time_blocks In] in Hin. cbn [in_some_block].
  apply Forall_cons in Hbs as [Hs Hbs]. apply Forall_cons in Hbe as [He Hbe].
  destruct ((sh * 60 + sm <=? hour x * 60 + minute x)
            && (hour x * 60 + minute x <? eh * 60 + em)) eqn:Ehere;
    [reflexivity|].
  destruct Hin as [<-|Hin]; [|exact (IH be block Hbs Hbe Hin Hx)].
  exfalso. cbn [fst snd] in Hx. rewrite !replace_offset in Hx.
  unfold clock_time in Hs, He. cbn [fst snd] in Hs, He.
  set (off := x - date dt * usec_per_day).
  assert (Hoff : (sh * 60 + sm) * usec_per_minute <= off
                 < (eh * 60 + em) * usec_per_minute) by (unfold off; lia).
  assert (Hday : 0 <= off < usec_per_day)
    by (unfold usec_per_day, usec_per_hour, usec_per_minute, usec_per_second in *;
        lia).
  replace x with (date dt * usec_per_day + off) in Ehere by (unfold off; ring).
  rewrite (minutes_of_day _ _ Hday) in Ehere.
  assert (sh * 60 + sm <= off / usec_per_minute)
    by (apply Z.div_le_lower_bound; [vm_compute; reflexivity|lia]).
  assert (off / usec_per_minute < eh * 60 + em)
    by (apply Z.div_lt_upper_bound; [vm_compute; reflexivity|lia]).
  apply andb_false_iff in Ehere as [H1|H1];
    [apply Z.leb_gt in H1|apply Z.ltb_ge in H1]; lia.
Qed.
End WithinHours.

(** X3. Every slot the day query returns lies within business hours from its
    first instant to its last: [is_business_hours] holds at every time of
    the slot, provided the configured hours and minutes are times of day. *)
Theorem offered_slots_are_in_business_hours
    (self : BookingManager.t) (api : CalendarService.remote) (dt : Z)
    (slots : list Z) (calls : list CalendarService.api_call) (s x : Z) :
  (0 < BookingManager.appointment_duration self)%Z ->
  Forall clock_time (BookingManager.business_hours_start self) ->
  Forall clock_time (BookingManager.business_hours_end self) ->
  query api self dt = Some (slots, calls) ->
  In s slots ->
  (s <= x < s + timedelta_minutes (BookingManager.appointment_duration self))%Z ->
  BusinessHours.is_business_hours self x = true.
Proof.
  intros Hd Hbs Hbe Hrun Hin Hx. unfold query in Hrun.
  pose proof (timedelta_minutes_pos _ Hd) as Hs.
  destruct (get_available_slots_shape _ _ _ _ _ _ _ _ Hrun)
    as [(-> & _)|(_ & _ & fb & lb & _ & _ & _ & [[_ ->]|Hread])];
    try destruct Hin.
  destruct Hread as (events & candidates & _ & Hcand & ->).
  rewrite all_slots_run in Hcand by (auto using loop_fuel_in).
  injection Hcand as <-.
  rewrite available_slots_filter in Hin. apply filter_In in Hin as [Hin _].
  apply in_flat_map in Hin as (block & Hblock & Hin).
  apply (in_starts_iff block _ s Hs) in Hin as (k & Hk & Hfit).
  unfold BusinessHours.is_business_hours.
  apply (in_block_is_open dt x _ _ block Hbs Hbe Hblock). nia.
Qed.

Lemma offered_slots_are_in_business_hours_witness :
  BusinessHours.is_business_hours shop (at_hour 17 + 59 * usec_per_minute) = true.
Proof.
  apply (offered_slots_are_in_business_hours shop (calendar_with [busy_14_to_15])
           (at_hour 3)
           [at_hour 9; at_hour 10; at_hour 11; at_hour 12; at_hour 13;
            at_hour 15; at_hour 16; at_hour 17]
           [CalendarService.EventsList (at_hour 9) (at_hour 18)]
           (at_hour 17) (at_hour 17 + 59 * usec_per_minute));
    [reflexivity
    |repeat constructor; vm_compute; discriminate
    |repeat constructor; vm_compute; discriminate
    |vm_compute; reflexivity
    |vm_compute; tauto
    |vm_compute; split; [discriminate|reflexivity]].
Defined.

(** ** Discovery under a running clock *)

Section RunningClock.
Local Open Scope Z_scope.
Import BookingManager.

Variable strftime : Z -> string -> string.
Variable clock : nat -> Z.
Variable api : CalendarService.remote.
Variable self : BookingManager.t.

(** What the slot loop keeps: entries of slots that were ahead of the clock
    when they were looked at. *)
Lemma future_slots_kept slots :
  forall tick shown tick',
    future_slots strftime clock tick slots = (shown, tick') ->
    (tick <= tick')%nat
    /\ forall e, In e shown ->
         exists slot i,
           e = entry strftime slot /\ In slot slots
           /\ (tick <= i)%nat /\ clock i < slot.
Proof.
  induction slots as [|slot slots IH]; intros tick shown tick' Hrun.
  - injection Hrun as <- <-. split; [lia|intros e []].
  - cbn [future_slots] in Hrun.
    destruct (future_slots strftime clock (S tick) slots) as [more t1] eqn:Hrest.
    destruct (IH _ _ _ Hrest) as [Hle Hmore].
    assert (Hlater : forall e, In e more ->
              exists s i, e = entry strftime s /\ In s (slot :: slots)
                          /\ (tick <= i)%nat /\ clock i < s).
    { intros e He. destruct (Hmore e He) as (s & i & -> & Hs & Hi & Hlt).
      exists s, i. repeat split; [right; exact Hs|lia|exact Hlt]. }
    destruct (Z.gtb_spec slot (clock tick)) as [Hgt|Hle'];
      injection Hrun as <- <-; (split; [lia|]); [|exact Hlater].
    intros e [<-|He]; [|exact (Hlater e He)].
    exists slot, tick. repeat split; [left; reflexivity|lia|lia].
Qed.

(** What the day loop gathers, and what it asks the calendar. *)
Lemma days_loop_gathers requested_date offsets :
  forall tick entries calls,
    days_loop strftime clock api self tick requested_date offsets
    = Some (entries, calls) ->
    (forall e, In e entries ->
       exists day_offset i j,
         In day_offset offsets
         /\ e = entry strftime (ResponseGenerator.datetime e)
         /\ In (ResponseGenerator.datetime e)
              (day_slots api self (requested_date + timedelta_days day_offset))
         /\ (tick <= i)%nat /\ clock i < ResponseGenerator.datetime e
         /\ (tick <= j)%nat
         /\ date (clock j) <= date (requested_date + timedelta_days day_offset))
    /\ Forall is_list_call calls
    /\ (length calls <= length offsets)%nat.
Proof.
  induction offsets as [|day_offset offsets IH]; intros tick entries calls Hrun.
  - injection Hrun as <- <-. split; [intros e []|].
    split; [exact (List.Forall_nil _)|cbn [length]; lia].
  - cbn [days_loop] in Hrun.
    destruct (Z.ltb_spec (date (requested_date + timedelta_days day_offset))
                (date (clock tick))) as [Hpast|Hday].
    + destruct (IH _ _ _ Hrun) as (Hentries & Hcalls & Hlen).
      split; [|split; [exact Hcalls|cbn [length]; lia]].
      intros e He.
      destruct (Hentries e He) as (k & i & j & Hk & Hrest).
      exists k, i, j. split; [right; exact Hk|].
      destruct Hrest as (? & ? & ? & ? & ? & ?). repeat split; try assumption; lia.
    + destruct (CalendarService.get_available_slots (calendar_service self) api
                  (requested_date + timedelta_days day_offset)
                  (business_hours_start self) (business_hours_end self)
                  (appointment_duration self))
        as [[slots calls0]|] eqn:Hq; [|discriminate Hrun].
      cbn [mbind option_bind] in Hrun.
      destruct (future_slots strftime clock (S tick) slots) as [shown t1] eqn:Hshown.
      destruct (days_loop strftime clock api self t1 requested_date offsets)
        as [[more calls1]|] eqn:Hrest; [|discriminate Hrun].
      cbn [mbind option_bind] in Hrun. injection Hrun as <- <-.
      destruct (future_slots_kept _ _ _ _ Hshown) as [Hle Hkept].
      destruct (IH _ _ _ Hrest) as (Hentries & Hcalls & Hlen).
      assert (Hcalls0 : Forall is_list_call calls0 /\ (length calls0 <= 1)%nat).
      { destruct (get_available_slots_shape _ _ _ _ _ _ _ _ Hq)
          as [(_ & -> & _)|(_ & _ & fb & lb & _ & _ & -> & _)];
          split; repeat constructor. }
      split; [|split].
      * intros e He. apply in_app_or in He as [He|He].
        -- destruct (Hkept e He) as (slot & i & -> & Hslot & Hi & Hlt).
           exists day_offset, i, tick. split; [left; reflexivity|].
           split; [reflexivity|]. cbn [entry ResponseGenerator.datetime].
           unfold day_slots, query. rewrite Hq.
           repeat split; try assumption; lia.
        -- destruct (Hentries e He) as (k & i & j & Hk & Hrest').
           exists k, i, j. split; [right; exact Hk|].
           destruct Hrest' as (? & ? & ? & ? & ? & ?).
           repeat split; try assumption; lia.
      * apply Forall_app. split; [apply Hcalls0|exact Hcalls].
      * rewrite length_app. cbn [length]. lia.
Qed.

(** A slot of the day query clears every event the calendar listed. *)
Lemma day_slot_is_free check_date s :
  In s (day_slots api self check_date) ->
  exists day_start day_end events,
    CalendarService.events_list api day_start day_end
    = CalendarService.Returned events
    /\ forall busy, In busy events ->
         ~ overlaps s (timedelta_minutes (appointment_duration self)) busy.
Proof.
  unfold day_slots, query.
  destruct (CalendarService.get_available_slots _ _ _ _ _ _)
    as [[slots calls]|] eqn:Hq; [|intros []].
  intros Hin.
  destruct (get_available_slots_shape _ _ _ _ _ _ _ _ Hq)
    as [(-> & _)|(_ & _ & fb & lb & _ & _ & _ & [[_ ->]|Hread])];
    try destruct Hin.
  destruct Hread as (events & candidates & Hread & _ & ->).
  exists (fst fb), (snd lb), events. split; [exact Hread|].
  rewrite available_slots_filter in Hin. apply filter_In in Hin as [_ Hfree].
  exact (proj1 (is_available_true _ _ _) Hfree).
Qed.

Lemma range_bounds n k : In k (range n) -> 0 <= k < n.
Proof.
  unfold range. intros H.
  apply list_elem_of_In, list_elem_of_fmap in H as (i & -> & Hi).
  apply list_elem_of_In, in_seq in Hi. lia.
Qed.
End RunningClock.

(** X4. Whatever the clock does, as long as it does not run backwards: the
    availability query of the booking manager shows at most 5 entries, asks
    the calendar at most once per day of the window and never writes to it;
    and every entry it shows is a slot of one of the window's days, on a day
    that is not before the day the call started, later than the time the
    call started, and clear of every event the calendar listed for its
    day. *)
Theorem discovery_shows_only_free_future_slots
    (strftime : Z -> string -> string) (clock : nat -> Z)
    (api : CalendarService.remote) (self : BookingManager.t)
    (requested_date num_days : Z)
    (shown : list ResponseGenerator.slot_entry)
    (calls : list CalendarService.api_call) :
  (forall i j, i <= j -> (clock i <= clock j)%Z) ->
  BookingManager.get_available_slots strftime clock api self
    requested_date num_days = Some (shown, calls) ->
  length shown <= 5
  /\ Forall is_list_call calls
  /\ length calls <= Z.to_nat num_days
  /\ forall e, In e shown ->
       exists day_offset : Z,
         (0 <= day_offset < num_days)%Z
         /\ e = BookingManager.entry strftime (ResponseGenerator.datetime e)
         /\ In (ResponseGenerator.datetime e)
              (day_slots api self (requested_date + timedelta_days day_offset)%Z)
         /\ (clock O < ResponseGenerator.datetime e)%Z
         /\ (date (clock O)
             <= date (requested_date + timedelta_days day_offset))%Z
         /\ exists day_start day_end events,
              CalendarService.events_list api day_start day_end
              = CalendarService.Returned events
              /\ forall busy, In busy events ->
                   ~ overlaps (ResponseGenerator.datetime e)
                       (timedelta_minutes (BookingManager.appointment_duration self))
                       busy.
Proof.
  intros Hmono Hrun. unfold BookingManager.get_available_slots in Hrun.
  destruct (BookingManager.days_loop strftime clock api self 0 requested_date
              (BookingManager.range num_days)) as [[entries calls0]|] eqn:Hloop;
    [|discriminate Hrun].
  cbn [mbind option_bind] in Hrun. injection Hrun as <- <-.
  destruct (days_loop_gathers strftime clock api self _ _ _ _ _ Hloop)
    as (Hentries & Hcalls & Hlen).
  split; [rewrite length_take; lia|]. split; [exact Hcalls|].
  split.
  { unfold BookingManager.range in Hlen.
    rewrite length_fmap, length_seq in Hlen. exact Hlen. }
  intros e He.
  assert (He' : In e entries).
  { apply list_elem_of_In. apply list_elem_of_In in He.
    exact (subseteq_take 5 entries e He). }
  destruct (Hentries e He')
    as (k & i & j & Hk & Hentry & Hslot & Hi & Hlt & Hj & Hday).
  exists k. split; [exact (range_bounds _ _ Hk)|].
  split; [exact Hentry|]. split; [exact Hslot|].
  split; [specialize (Hmono 0 i ltac:(lia)); lia|].
  split.
  { specialize (Hmono 0 j ltac:(lia)).
    assert (date (clock O) <= date (clock j))%Z
      by (apply Z.div_le_mono; [vm_compute; reflexivity|exact Hmono]).
    lia. }
  exact (day_slot_is_free api self _ _ Hslot).
Qed.

Lemma discovery_shows_only_free_future_slots_witness :
  exists shown calls,
    BookingManager.get_available_slots plain_strftime
      (fun n => (at_hour 12 + Z.of_nat n)%Z)
      (calendar_with [busy_14_to_15]) shop (at_hour 14 - usec_per_day) 3
    = Some (shown, calls)
    /\ length calls <= 3
    /\ forall e, In e shown -> (at_hour 12 < ResponseGenerator.datetime e)%Z.
Proof.
  destruct (BookingManager.get_available_slots plain_strftime
              (fun n => (at_hour 12 + Z.of_nat n)%Z)
              (calendar_with [busy_14_to_15]) shop (at_hour 14 - usec_per_day) 3)
    as [[shown calls]|] eqn:Hrun; [|vm_compute in Hrun; discriminate Hrun].
  destruct (discovery_shows_only_free_future_slots plain_strftime
              (fun n => (at_hour 12 + Z.of_nat n)%Z)
              (calendar_with [busy_14_to_15]) shop (at_hour 14 - usec_per_day) 3
              shown calls ltac:(intros i j Hij; cbn beta; lia) Hrun)
    as (_ & _ & Hlen & Hshown).
  exists shown, calls. split; [reflexivity|]. split; [exact Hlen|].
  intros e He. destruct (Hshown e He) as (_ & _ & _ & _ & Hlater & _).
  rewrite Z.add_0_r in Hlater. exact Hlater.
Defined.

(** ** What a booking writes, and what it blocks *)

Section Commit.
Local Open Scope Z_scope.
Import CalendarService BookingManager.

(** The event [create_appointment] sends for a customer. *)
Definition appointment_body (customer_name customer_contact : string)
    (start_time duration_minutes : Z) (service_type : string) : event_body := {|
  summary := service_type +:+ " - " +:+ customer_name;
  description := "Customer: " +:+ customer_name +:+ newline
                 +:+ "Contact: @" +:+ customer_contact +:+ newline
                 +:+ "Service: " +:+ service_type;
  start_dateTime := start_time;
  end_dateTime := start_time + timedelta_minutes duration_minutes |}.

(** A booking that reports success, taken apart. *)
Lemma create_booking_success api self user_id customer_name t service_type
    r log :
  create_booking api self user_id customer_name t service_type = Some (r, log) ->
  Py.truthy (r !! "success"%string) = true ->
  exists slots calls id,
    CalendarService.get_available_slots (calendar_service self) api
      (replace t 0 0) (business_hours_start self) (business_hours_end self)
      (appointment_duration self) = Some (slots, calls)
    /\ any_within_minute t slots = true
    /\ events_insert api
         (appointment_body customer_name user_id t (appointment_duration self)
            service_type) = Returned (Some id)
    /\ id <> ""%string
    /\ r = booked id customer_name service_type t
    /\ log = calls
             ++ [EventsInsert
                   (appointment_body customer_name user_id t
                      (appointment_duration self) service_type)].
Proof.
  unfold create_booking. intros Hrun Hok.
  destruct (CalendarService.get_available_slots _ _ _ _ _ _)
    as [[slots calls]|] eqn:Hq; [|discriminate Hrun].
  cbn [mbind option_bind] in Hrun. exists slots, calls.
  destruct (any_within_minute t slots) eqn:Eany; cbn [negb] in Hrun;
    [|injection Hrun as <- <-; discriminate Hok].
  assert (Hsvc : service (calendar_service self) = true).
  { destruct (service (calendar_service self)) eqn:Es; [reflexivity|].
    unfold CalendarService.get_available_slots in Hq. rewrite Es in Hq.
    cbn [negb] in Hq. injection Hq as <- <-. discriminate Eany. }
  unfold create_appointment in Hrun. rewrite Hsvc in Hrun. cbn [negb] in Hrun.
  fold (appointment_body customer_name user_id t (appointment_duration self)
          service_type) in Hrun.
  destruct (events_insert api _) as [[id|]|] eqn:Eins;
    [destruct (String.eqb_spec id "") as [->|Hid]; cbn [negb] in Hrun| |];
    injection Hrun as <- <-; try discriminate Hok.
  exists id. repeat split; assumption.
Qed.
End Commit.

(** X5. A booking that reports success has written exactly one event, for the
    requested time itself (a recomputed slot starts less than 60 seconds
    away from it) and lasting the appointment duration; the record it
    returns carries the identifier the calendar answered, which is not
    empty, and the requested time. *)
Theorem successful_booking_writes_the_requested_time
    (api : CalendarService.remote) (self : BookingManager.t)
    (user_id customer_name : string) (t : Z) (service_type : string)
    (r : gmap string Py.value) (log : list CalendarService.api_call) :
  BookingManager.create_booking api self user_id customer_name t service_type
  = Some (r, log) ->
  Py.truthy (r !! "success"%string) = true ->
  exists calls body id slot,
    log = calls ++ [CalendarService.EventsInsert body]
    /\ Forall is_list_call calls
    /\ CalendarService.start_dateTime body = t
    /\ CalendarService.end_dateTime body
       = (t + timedelta_minutes (BookingManager.appointment_duration self))%Z
    /\ CalendarService.events_insert api body
       = CalendarService.Returned (Some id)
    /\ r !! "event_id"%string = Some (Py.PyStr id)
    /\ id <> ""%string
    /\ r !! "appointment_time"%string = Some (Py.PyDatetime t)
    /\ In slot (day_slots api self t)
    /\ (Z.abs (slot - t) < 60 * usec_per_second)%Z.
Proof.
  intros Hrun Hok.
  destruct (create_booking_success _ _ _ _ _ _ _ _ Hrun Hok)
    as (slots & calls & id & Hq & Hany & Hins & Hid & -> & ->).
  apply any_within_minute_spec in Hany as (slot & Hslot & Hnear).
  exists calls, (appointment_body customer_name user_id t
                   (BookingManager.appointment_duration self) service_type),
    id, slot.
  split; [reflexivity|]. split.
  { destruct (get_available_slots_shape _ _ _ _ _ _ _ _ Hq)
      as [(_ & -> & _)|(_ & _ & fb & lb & _ & _ & -> & _)]; repeat constructor. }
  split; [reflexivity|]. split; [reflexivity|]. split; [exact Hins|].
  split; [reflexivity|]. split; [exact Hid|]. split; [reflexivity|].
  split; [|exact Hnear].
  unfold day_slots, query.
  rewrite (get_available_slots_same_day _ _ t (replace t 0 0))
    by (symmetry; apply date_replace_midnight).
  rewrite Hq. exact Hslot.
Qed.

Lemma successful_booking_writes_the_requested_time_witness :
  exists log body,
    BookingManager.create_booking (calendar_with [busy_14_to_15]) shop
      "17841400000" "Customer" (at_hour 15 + 30 * usec_per_second)%Z "Haircut"
    = Some (BookingManager.booked "evt_1" "Customer" "Haircut"
              (at_hour 15 + 30 * usec_per_second)%Z, log)
    /\ In (CalendarService.EventsInsert body) log
    /\ CalendarService.start_dateTime body = (at_hour 15 + 30 * usec_per_second)%Z.
Proof.
  assert (Hrun : exists log,
    BookingManager.create_booking (calendar_with [busy_14_to_15]) shop
      "17841400000" "Customer" (at_hour 15 + 30 * usec_per_second)%Z "Haircut"
    = Some (BookingManager.booked "evt_1" "Customer" "Haircut"
              (at_hour 15 + 30 * usec_per_second)%Z, log))
    by (eexists; vm_compute; reflexivity).
  destruct Hrun as (log & Hrun).
  destruct (successful_booking_writes_the_requested_time _ _ _ _ _ _ _ _ Hrun
              ltac:(reflexivity))
    as (calls & body & id & slot & -> & _ & Hstart & _).
  exists (calls ++ [CalendarService.EventsInsert body]), body.
  split; [exact Hrun|]. split; [|exact Hstart].
  apply in_or_app. right. left. reflexivity.
Defined.



(** ** What a message may do to the calendar *)

Section CalendarTraffic.
Import IntentRouter Py.

Variable strftime : Z -> string -> string.

(** The events a log writes to the calendar, in order. *)
Fixpoint inserts (log : list effect) : list CalendarService.event_body :=
  match log with
  | [] => []
  | Calendar (CalendarService.EventsInsert body) :: rest => body :: inserts rest
  | _ :: rest => inserts rest
  end.

(** Whether a log touches the calendar at all. *)
Fixpoint calendar_calls (log : list effect) : list CalendarService.api_call :=
  match log with
  | [] => []
  | Calendar c :: rest => c :: calendar_calls rest
  | _ :: rest => calendar_calls rest
  end.

Lemma inserts_app log log' : inserts (log ++ log') = inserts log ++ inserts log'.
Proof.
  induction log as [|[[a b|body]|u t r|c] log IH]; cbn [inserts app];
    rewrite ?IH; reflexivity.
Qed.

Lemma inserts_of_reads calls :
  Forall is_list_call calls -> inserts (calendar_effects calls) = [].
Proof.
  induction 1 as [|[a b|body] calls Hc _ IH]; [reflexivity|exact IH|destruct Hc].
Qed.

Lemma calendar_calls_effects calls :
  calendar_calls (calendar_effects calls) = calls.
Proof.
  induction calls as [|c calls IH]; [reflexivity|].
  cbn [calendar_effects fmap list_fmap calendar_calls]. f_equal. exact IH.
Qed.

Lemma calendar_calls_app log log' :
  calendar_calls (log ++ log') = calendar_calls log ++ calendar_calls log'.
Proof.
  induction log as [|[c|u t r|c] log IH]; cbn [calendar_calls app];
    rewrite ?IH; reflexivity.
Qed.

(** The handler's calendar traffic, intent by intent. *)
Lemma handle_intent_traffic self w user_id intent message_text st
    response st' log :
  _handle_intent strftime self w user_id intent message_text st
  = Some (response, st', log) ->
  (calendar_calls log = [] /\ inserts log = [])
  \/ (intent = "booking_inquiry"%string
      /\ inserts log = [] /\ Forall is_list_call (calendar_calls log)
      /\ length (calendar_calls log) <= 3)
  \/ (intent = "confirm_booking"%string
      /\ in_confirmable_stage (stage_of st) = true
      /\ exists t,
           booking_data st !! "proposed_time"%string = Some (PyDatetime t)
           /\ length (calendar_calls log) <= 2
           /\ (inserts log = []
               \/ exists body,
                    inserts log = [body]
                    /\ CalendarService.start_dateTime body = t)).
Proof.
  unfold _handle_intent. intros Hrun.
  destruct (String.eqb_spec intent "greeting") as [_|_];
    [injection Hrun as <- <- <-; left; split; reflexivity|].
  destruct (String.eqb_spec intent "booking_inquiry") as [Hinquiry|_].
  { destruct (_extract_date_time w) as [date_info|];
      [|injection Hrun as <- <- <-; left; split; reflexivity].
    destruct (BookingManager.get_available_slots strftime (clock w) (api w)
                (booking_manager self) date_info 3) as [[slots calls]|] eqn:Hq;
      [|discriminate Hrun].
    cbn [mbind option_bind] in Hrun. injection Hrun as <- <- <-.
    right. left. split; [exact Hinquiry|].
    unfold BookingManager.get_available_slots in Hq.
    destruct (BookingManager.days_loop strftime (clock w) (api w)
                (booking_manager self) 0 date_info (BookingManager.range 3))
      as [[entries calls0]|] eqn:Hloop; [|discriminate Hq].
    cbn [mbind option_bind] in Hq. injection Hq as <- <-.
    destruct (days_loop_gathers _ _ _ _ _ _ _ _ _ Hloop) as (_ & Hreads & Hlen).
    rewrite calendar_calls_effects.
    split; [apply inserts_of_reads, Hreads|]. split; [exact Hreads|exact Hlen]. }
  destruct (String.eqb_spec intent "confirm_booking") as [Hconfirm|_];
    cbn [andb] in Hrun.
  { destruct (in_confirmable_stage (stage_of st)) eqn:Hstage;
      [|destruct (String.eqb_spec intent "cancel_booking") as [_|_];
        [injection Hrun as <- <- <-; left; split; reflexivity|];
        rewrite Hconfirm in Hrun; cbn in Hrun;
        injection Hrun as <- <- <-; left; split; reflexivity].
    destruct (truthy (_extract_confirmed_time message_text st)) eqn:Etruthy;
      [|injection Hrun as <- <- <-; left; split; reflexivity].
    destruct (_extract_confirmed_time message_text st) as [[| | |t]|] eqn:Eslot;
      try discriminate Hrun.
    assert (Hproposed : booking_data st !! "proposed_time"%string
                        = Some (PyDatetime t)).
    { unfold _extract_confirmed_time in Eslot.
      destruct (existsb _ confirmation_words); [exact Eslot|discriminate]. }
    destruct (BookingManager.create_booking (api w) (booking_manager self)
                user_id "Customer" t "Haircut") as [[r calls]|] eqn:Hbook;
      [|discriminate Hrun].
    cbn [mbind option_bind] in Hrun.
    assert (Hlog : log = calendar_effects calls ++ [Booking user_id t r])
      by (destruct (truthy (r !! "success"%string));
          injection Hrun as _ _ <-; reflexivity).
    right. right. split; [exact Hconfirm|]. split; [reflexivity|].
    exists t. split; [exact Hproposed|].
    rewrite Hlog, calendar_calls_app, inserts_app, calendar_calls_effects.
    cbn [calendar_calls inserts]. rewrite !app_nil_r.
    unfold BookingManager.create_booking in Hbook.
    destruct (CalendarService.get_available_slots _ _ _ _ _ _)
      as [[slots calls0]|] eqn:Hq; [|discriminate Hbook].
    assert (Hreads : Forall is_list_call calls0 /\ length calls0 <= 1).
    { destruct (get_available_slots_shape _ _ _ _ _ _ _ _ Hq)
        as [(_ & -> & _)|(_ & _ & fb & lb & _ & _ & -> & _)];
        split; repeat constructor. }
    destruct (create_booking_cases (api w) (booking_manager self) user_id
                "Customer" t "Haircut" slots calls0 Hq)
      as [[_ Hcase]|(_ & _ & body & Hstart & [(id & _ & _ & Hcase)|[_ Hcase]])];
      unfold BookingManager.create_booking in Hcase; rewrite Hq in Hcase;
      rewrite Hcase in Hbook; injection Hbook as _ <-.
    - split; [lia|]. left. apply inserts_of_reads, Hreads.
    - split; [rewrite length_app; cbn [length]; lia|]. right. exists body.
      split; [|exact Hstart]. unfold calendar_effects.
      rewrite fmap_app. fold (calendar_effects calls0).
      rewrite inserts_app, inserts_of_reads by apply Hreads. reflexivity.
    - split; [rewrite length_app; cbn [length]; lia|]. right. exists body.
      split; [|exact Hstart]. unfold calendar_effects.
      rewrite fmap_app. fold (calendar_effects calls0).
      rewrite inserts_app, inserts_of_reads by apply Hreads. reflexivity. }
  destruct (String.eqb_spec intent "cancel_booking") as [_|_];
    [injection Hrun as <- <- <-; left; split; reflexivity|].
  destruct (String.eqb_spec intent "general_question") as [_|_].
  { unfold _answer_general_question in Hrun.
    destruct (answer_reply w); injection Hrun as <- <- <-; left; split;
      reflexivity. }
  injection Hrun as <- <- <-. left. split; reflexivity.
Qed.
End CalendarTraffic.

(** X7. One [route_message] makes at most three calendar calls and writes at
    most one event.  It touches the calendar only for a booking inquiry,
    which only reads, or for a confirmation; and it writes only for a
    confirmation in stage [showing_availability] or [awaiting_confirmation]
    whose subject has a proposed time, the event starting at that time.  A
    greeting, a cancellation, a general question or an unknown intent never
    reaches the calendar: cancelling deletes nothing. *)
Theorem only_a_confirmation_writes_to_the_calendar
    (strftime : Z -> string -> string)
    (self : IntentRouter.t) (w : IntentRouter.world)
    (user_id message_text response : string)
    (self' : IntentRouter.t) (log : list IntentRouter.effect) :
  IntentRouter.route_message strftime self w user_id message_text
  = Some (response, self', log) ->
  length (calendar_calls log) <= 3
  /\ length (inserts log) <= 1
  /\ (calendar_calls log <> [] ->
      IntentRouter._detect_intent w = "booking_inquiry"%string
      \/ IntentRouter._detect_intent w = "confirm_booking"%string)
  /\ (forall body, In body (inserts log) ->
        IntentRouter._detect_intent w = "confirm_booking"%string
        /\ IntentRouter.in_confirmable_stage
             (IntentRouter.stage_of (state_of self user_id)) = true
        /\ IntentRouter.booking_data (state_of self user_id)
             !! "proposed_time"%string
           = Some (Py.PyDatetime (CalendarService.start_dateTime body))).
Proof.
  intros Hrun.
  destruct (route_message_outcome strftime _ _ _ _ _ _ _ Hrun)
    as (st' & Hhandle & _).
  destruct (handle_intent_traffic strftime _ _ _ _ _ _ _ _ _ Hhandle)
    as [[Hcalls Hwrites]
       |[(Hintent & Hwrites & _ & Hlen)
        |(Hintent & Hstage & t & Hproposed & Hlen & Hwrites)]].
  - rewrite Hcalls, Hwrites. cbn [length].
    split; [lia|]. split; [lia|]. split; [intros H; destruct (H eq_refl)|].
    intros body [].
  - rewrite Hwrites. cbn [length]. split; [exact Hlen|]. split; [lia|].
    split; [intros _; left; exact Hintent|intros body []].
  - split; [lia|].
    cbn [IntentRouter.stage_of IntentRouter.booking_data
           IntentRouter.set_history] in Hstage, Hproposed.
    destruct Hwrites as [->|(body & -> & Hstart)]; cbn [length].
    + split; [lia|]. split; [intros _; right; exact Hintent|intros body []].
    + split; [lia|]. split; [intros _; right; exact Hintent|].
      intros body' [<-|[]]. rewrite Hstart.
      split; [exact Hintent|]. split; [exact Hstage|exact Hproposed].
Qed.

Lemma only_a_confirmation_writes_to_the_calendar_witness :
  exists response self' log body,
    IntentRouter.route_message plain_strftime
      (with_proposal IntentRouter.awaiting_confirmation (at_hour 15))
      (answers "confirm_booking" None (calendar_with [busy_14_to_15]))
      "17841400000" "Yes, that works"
    = Some (response, self', log)
    /\ inserts log = [body]
    /\ CalendarService.start_dateTime body = at_hour 15.
Proof.
  destruct (IntentRouter.route_message plain_strftime
              (with_proposal IntentRouter.awaiting_confirmation (at_hour 15))
              (answers "confirm_booking" None (calendar_with [busy_14_to_15]))
              "17841400000" "Yes, that works")
    as [[[response self'] log]|] eqn:Hrun; [|vm_compute in Hrun; discriminate Hrun].
  destruct (only_a_confirmation_writes_to_the_calendar plain_strftime _ _ _ _ _ _ _
              Hrun) as (_ & _ & _ & Hwrites).
  destruct (inserts log) as [|body [|body' rest]] eqn:Hlog;
    [vm_compute in Hrun; injection Hrun as _ _ <-; vm_compute in Hlog;
     discriminate Hlog
    | |vm_compute in Hrun; injection Hrun as _ _ <-; vm_compute in Hlog;
       discriminate Hlog].
  exists response, self', log, body. split; [reflexivity|]. split; [exact Hlog|].
  destruct (Hwrites body (or_introl eq_refl)) as (_ & _ & Hproposed).
  vm_compute in Hproposed. injection Hproposed as Hstart.
  symmetry. exact Hstart.
Defined.

(** ** Booking attempts along a dialogue *)

Section Attempts.
Import IntentRouter Py.

Variable strftime : Z -> string -> string.

(** The [create_booking] calls made for a subject, in order, each with the
    requested time and the result. *)
Fixpoint attempts (user_id : string) (trace : list event)
  : list (Z * gmap string value) :=
  match trace with
  | [] => []
  | Did v (Booking _ t r) :: rest =>
      if decide (v = user_id) then (t, r) :: attempts user_id rest
      else attempts user_id rest
  | _ :: rest => attempts user_id rest
  end.

Lemma attempts_app user_id trace trace' :
  attempts user_id (trace ++ trace')
  = attempts user_id trace ++ attempts user_id trace'.
Proof.
  induction trace as [|[v t|v [c|u t r|c]] trace IH]; cbn [attempts app];
    try exact IH; [reflexivity|].
  destruct (decide (v = user_id)); [cbn [app]; f_equal|]; exact IH.
Qed.

Lemma attempts_reads user_id v calls :
  attempts user_id (Did v <$> calendar_effects calls) = [].
Proof. induction calls as [|c calls IH]; [reflexivity|exact IH]. Qed.

Lemma attempts_events_of user_id m response log :
  attempts user_id (events_of m response log)
  = attempts user_id (Did (sender m) <$> log).
Proof.
  unfold events_of.
  change (attempts user_id
            ((Did (sender m) <$> log)
             ++ [Said (sender m) (assistant_turn response)])
          = attempts user_id (Did (sender m) <$> log)).
  rewrite attempts_app. apply app_nil_r.
Qed.

Lemma attempts_other user_id v log :
  v <> user_id -> attempts user_id (Did v <$> log) = [].
Proof.
  intros Hne. induction log as [|[c|u t r|c] log IH];
    cbn [fmap list_fmap attempts]; try exact IH; [reflexivity|].
  destruct (decide (v = user_id)); [congruence|exact IH].
Qed.

(** The log of the handler is one of four. *)
Lemma handle_intent_log self w user_id intent message_text st response st' log :
  _handle_intent strftime self w user_id intent message_text st
  = Some (response, st', log) ->
  (exists calls, log = calendar_effects calls /\ booking_data st' = booking_data st)
  \/ (exists context, log = [Question context]
                      /\ booking_data st' = booking_data st)
  \/ (exists calls t r,
        log = calendar_effects calls ++ [Booking user_id t r]
        /\ booking_data st !! "proposed_time"%string = Some (PyDatetime t)
        /\ ((booking_record t r /\ booking_data st' = r)
            \/ (booking_failure r /\ st' = st))).
Proof.
  unfold _handle_intent. intros Hrun.
  assert (Hquiet : forall resp s,
            Some (resp, s, @nil effect) = Some (response, st', log) ->
            booking_data s = booking_data st ->
            (exists calls, log = calendar_effects calls
                           /\ booking_data st' = booking_data st)
            \/ (exists context, log = [Question context]
                                /\ booking_data st' = booking_data st)
            \/ (exists calls t r,
                  log = calendar_effects calls ++ [Booking user_id t r]
                  /\ booking_data st !! "proposed_time"%string
                     = Some (PyDatetime t)
                  /\ ((booking_record t r /\ booking_data st' = r)
                      \/ (booking_failure r /\ st' = st)))).
  { intros resp s [= <- <- <-] Hdata. left. exists []. split; [reflexivity|exact Hdata]. }
  destruct (String.eqb intent "greeting"); [exact (Hquiet _ _ Hrun eq_refl)|].
  destruct (String.eqb intent "booking_inquiry").
  { destruct (_extract_date_time w) as [date_info|];
      [|exact (Hquiet _ _ Hrun eq_refl)].
    destruct (BookingManager.get_available_slots strftime (clock w) (api w)
                (booking_manager self) date_info 3) as [[slots calls]|];
      [|discriminate Hrun].
    cbn [mbind option_bind] in Hrun. injection Hrun as <- <- <-.
    left. exists calls. split; reflexivity. }
  destruct (String.eqb intent "confirm_booking"
            && in_confirmable_stage (stage_of st)).
  { destruct (truthy (_extract_confirmed_time message_text st)) eqn:Etruthy;
      [|exact (Hquiet _ _ Hrun eq_refl)].
    destruct (_extract_confirmed_time message_text st) as [[| | |t]|] eqn:Eslot;
      try discriminate Hrun.
    assert (Hproposed : booking_data st !! "proposed_time"%string
                        = Some (PyDatetime t)).
    { unfold _extract_confirmed_time in Eslot.
      destruct (existsb _ confirmation_words); [exact Eslot|discriminate]. }
    destruct (BookingManager.create_booking (api w) (booking_manager self)
                user_id "Customer" t "Haircut") as [[r calls]|] eqn:Hbook;
      [|discriminate Hrun].
    cbn [mbind option_bind] in Hrun.
    right. right. exists calls, t, r.
    destruct (create_booking_result _ _ _ _ _ _ Hbook) as [Hrecord|Hfailure].
    - destruct Hrecord as (id & Hid & ->). rewrite booked_success in Hrun.
      injection Hrun as <- <- <-. split; [reflexivity|]. split; [exact Hproposed|].
      left. split; [exists id; split; [exact Hid|reflexivity]|reflexivity].
    - assert (Hnot : truthy (r !! "success"%string) = false)
        by (destruct Hfailure as [->| ->]; reflexivity).
      rewrite Hnot in Hrun. injection Hrun as <- <- <-.
      split; [reflexivity|]. split; [exact Hproposed|].
      right. split; [exact Hfailure|reflexivity]. }
  destruct (String.eqb intent "cancel_booking"); [exact (Hquiet _ _ Hrun eq_refl)|].
  destruct (String.eqb intent "general_question").
  { unfold _answer_general_question in Hrun.
    destruct (answer_reply w); injection Hrun as <- <- <-; right; left;
      eexists; split; reflexivity. }
  exact (Hquiet _ _ Hrun eq_refl).
Qed.

(** The attempts of one step. *)
Lemma attempts_of_step self m response self' log user_id :
  route_message strftime self (env m) (sender m) (text m)
  = Some (response, self', log) ->
  (attempts user_id (events_of m response log) = []
   /\ booking_data (state_of self' user_id)
      = booking_data (state_of self user_id))
  \/ (exists t r,
        attempts user_id (events_of m response log) = [(t, r)]
        /\ ((booking_record t r /\ booking_data (state_of self' user_id) = r)
            \/ (booking_failure r
                /\ booking_data (state_of self' user_id)
                   = booking_data (state_of self user_id)))).
Proof.
  intros Hrun.
  destruct (route_message_outcome strftime _ _ _ _ _ _ _ Hrun)
    as (st' & Hhandle & _ & _ & Hother & _ & _ & _ & Hdata & _).
  rewrite attempts_events_of.
  destruct (decide (sender m = user_id)) as [<-|Hne].
  - destruct (handle_intent_log _ _ _ _ _ _ _ _ _ Hhandle)
      as [(calls & -> & Hkept)
         |[(context & -> & Hkept)
          |(calls & t & r & -> & _ & Hcases)]].
    + left. rewrite attempts_reads, Hdata. split; [reflexivity|exact Hkept].
    + left. rewrite Hdata. split; [reflexivity|exact Hkept].
    + right. exists t, r. rewrite fmap_app, attempts_app, attempts_reads.
      cbn [fmap list_fmap attempts app].
      destruct (decide (sender m = sender m)); [|congruence].
      split; [reflexivity|]. rewrite Hdata.
      destruct Hcases as [[Hrecord Hr]|[Hfailure ->]];
        [left; split; assumption|right; split; [exact Hfailure|reflexivity]].
  - left. rewrite Hother by congruence. split; [|reflexivity].
    apply attempts_other, Hne.
Qed.

(** Without a proposed time a subject's later messages attempt nothing. *)
Lemma no_proposal_no_attempt user_id messages :
  forall self self' trace,
    route_all strftime self messages = Some (self', trace) ->
    booking_data (state_of self user_id) !! "proposed_time"%string = None ->
    attempts user_id trace = [].
Proof.
  induction messages as [|m messages IH]; intros self self' trace Hrun Hnone.
  - injection Hrun as <- <-. reflexivity.
  - cbn [route_all] in Hrun.
    destruct (route_message strftime self (env m) (sender m) (text m))
      as [[[response self1] log]|] eqn:Hstep; [|discriminate Hrun].
    cbn [mbind option_bind] in Hrun.
    destruct (route_all strftime self1 messages) as [[self2 rest]|] eqn:Hrest;
      [|discriminate Hrun].
    cbn [mbind option_bind] in Hrun.
    assert (Htrace : trace = events_of m response log ++ rest) by congruence.
    rewrite Htrace, attempts_app. clear Hrun Htrace.
    destruct (route_message_outcome strftime _ _ _ _ _ _ _ Hstep)
      as (st' & Hhandle & _ & _ & Hother & _ & _ & _ & Hdata & _).
    destruct (attempts_of_step _ _ _ _ _ user_id Hstep)
      as [[-> Hkept]|(t & r & Hone & _)].
    + apply (IH _ _ _ Hrest). rewrite Hkept. exact Hnone.
    + exfalso. rewrite attempts_events_of in Hone.
      destruct (decide (sender m = user_id)) as [<-|Hne].
      * destruct (handle_intent_log _ _ _ _ _ _ _ _ _ Hhandle)
          as [(calls & -> & _)|[(context & -> & _)
             |(calls & t' & r' & _ & Hsome & _)]].
        -- rewrite attempts_reads in Hone. discriminate Hone.
        -- discriminate Hone.
        -- cbn [booking_data set_history] in Hsome. congruence.
      * rewrite (attempts_other _ _ _ Hne) in Hone. discriminate Hone.
Qed.
End Attempts.

(** X8. Along any run, from any store, every [create_booking] call made for
    a subject returns a booking record or one of the two failures, and a call
    that returned a booking record is the subject's last one: an attempt is
    followed by another only if it failed, so no subject is booked twice. *)
Theorem a_subject_is_booked_at_most_once
    (strftime : Z -> string -> string)
    (messages : list message) (self self' : IntentRouter.t)
    (trace : list event) (user_id : string)
    (earlier later : list (Z * gmap string Py.value))
    (t : Z) (r : gmap string Py.value) :
  route_all strftime self messages = Some (self', trace) ->
  attempts user_id trace = earlier ++ (t, r) :: later ->
  (booking_record t r \/ booking_failure r)
  /\ (booking_record t r -> later = [])
  /\ (later <> [] -> booking_failure r).
Proof.
  revert self self' trace earlier.
  induction messages as [|m messages IH];
    intros self self' trace earlier Hrun Hsplit.
  - injection Hrun as <- <-. destruct earlier; discriminate Hsplit.
  - cbn [route_all] in Hrun.
    destruct (IntentRouter.route_message strftime self (env m) (sender m) (text m))
      as [[[response self1] log]|] eqn:Hstep; [|discriminate Hrun].
    cbn [mbind option_bind] in Hrun.
    destruct (route_all strftime self1 messages) as [[self2 rest]|] eqn:Hrest;
      [|discriminate Hrun].
    cbn [mbind option_bind] in Hrun.
    assert (Htrace : trace = events_of m response log ++ rest) by congruence.
    rewrite Htrace, attempts_app in Hsplit. clear Hrun Htrace.
    destruct (attempts_of_step strftime _ _ _ _ _ user_id Hstep)
      as [[Hnone _]|(t0 & r0 & Hone & Hcases)].
    + rewrite Hnone in Hsplit. exact (IH _ _ _ _ Hrest Hsplit).
    + rewrite Hone in Hsplit. cbn [app] in Hsplit.
      destruct earlier as [|first earlier]; cbn [app] in Hsplit.
      * injection Hsplit as -> -> Hlater.
        destruct Hcases as [[Hrecord Hdata]|[Hfailure _]].
        -- split; [left; exact Hrecord|].
           assert (Hlast : later = []).
           { rewrite <- Hlater.
             apply (no_proposal_no_attempt strftime user_id _ _ _ _ Hrest).
             rewrite Hdata. destruct Hrecord as (id & _ & ->). reflexivity. }
           split; [intros _; exact Hlast|intros Hmore; destruct (Hmore Hlast)].
        -- split; [right; exact Hfailure|].
           split; [|intros _; exact Hfailure].
           intros (id & _ & ->).
           destruct Hfailure as [Hf|Hf];
             destruct (booked_is_no_failure _ _ _ _ _ _ Hf).
      * injection Hsplit as _ Hsplit. exact (IH _ _ _ _ Hrest Hsplit).
Qed.

Section TwoConfirmations.
(** The subject confirms, and confirms again. *)
Definition confirms_twice : list message :=
  [confirms (calendar_with [busy_14_to_15]);
   confirms (calendar_with [busy_14_to_15])].
End TwoConfirmations.

Lemma a_subject_is_booked_at_most_once_witness :
  exists self' trace t r,
    route_all plain_strftime
      (with_proposal IntentRouter.awaiting_confirmation (at_hour 15))
      confirms_twice = Some (self', trace)
    /\ attempts "17841400000" trace = [(t, r)]
    /\ booking_record t r.
Proof.
  destruct (route_all plain_strftime
              (with_proposal IntentRouter.awaiting_confirmation (at_hour 15))
              confirms_twice)
    as [[self' trace]|] eqn:Hrun; [|vm_compute in Hrun; discriminate Hrun].
  assert (Hattempts : exists t r, attempts "17841400000" trace = [] ++ (t, r) :: [])
    by (vm_compute in Hrun; injection Hrun as _ <-; eexists _, _; vm_compute;
        reflexivity).
  destruct Hattempts as (t & r & Hattempts).
  destruct (a_subject_is_booked_at_most_once plain_strftime _ _ _ _
              "17841400000"%string [] [] t r Hrun Hattempts)
    as ([Hrecord|Hfailure] & _).
  - exists self', trace, t, r. split; [reflexivity|]. split; assumption.
  - exfalso. vm_compute in Hrun. injection Hrun as _ <-.
    vm_compute in Hattempts. injection Hattempts as _ <-.
    destruct Hfailure as [Hf|Hf];
      apply (f_equal (fun m : gmap string Py.value => m !! "success"%string)) in Hf;
      vm_compute in Hf; discriminate Hf.
Defined.

(** ** Subjects are independent *)

Section Isolation.
Import IntentRouter Py.

Variable strftime : Z -> string -> string.

(** Two routers that serve a subject alike: same configuration, same state
    for the subject. *)
Definition alike (user_id : string) (a b : IntentRouter.t) : Prop :=
  response_generator a = response_generator b
  /\ booking_manager a = booking_manager b
  /\ state_of a user_id = state_of b user_id.

Lemma handle_intent_configuration a b w user_id intent message_text st :
  response_generator a = response_generator b ->
  booking_manager a = booking_manager b ->
  _handle_intent strftime a w user_id intent message_text st
  = _handle_intent strftime b w user_id intent message_text st.
Proof.
  intros Hrg Hbm. unfold _handle_intent, _answer_general_question.
  rewrite Hrg, Hbm. reflexivity.
Qed.

(** [route_message] reads of the store the subject's own entry only. *)
Lemma route_message_alike a b w user_id message_text response a' log :
  alike user_id a b ->
  route_message strftime a w user_id message_text = Some (response, a', log) ->
  exists b',
    route_message strftime b w user_id message_text = Some (response, b', log)
    /\ alike user_id a' b'.
Proof.
  intros (Hrg & Hbm & Hst) Hrun.
  destruct (route_message_outcome strftime _ _ _ _ _ _ _ Hrun)
    as (st' & Hhandle & Hrg' & Hbm' & _ & _ & _ & _ & _ & _).
  rewrite (handle_intent_configuration a b _ _ _ _ _ Hrg Hbm), Hst in Hhandle.
  unfold route_message in Hrun |- *.
  fold (state_of a user_id) in Hrun. fold (state_of b user_id).
  fold (user_turn message_text) in Hrun |- *.
  rewrite (handle_intent_configuration a b _ _ _ _ _ Hrg Hbm), Hst in Hrun.
  rewrite Hhandle in Hrun |- *. cbn [mbind option_bind] in Hrun |- *.
  injection Hrun as <-. eexists. split; [reflexivity|].
  split; [exact Hrg|]. split; [exact Hbm|].
  rewrite !state_of_insert. destruct (decide (user_id = user_id)); [|congruence].
  reflexivity.
Qed.

Lemma route_message_elsewhere a w v message_text response a' log user_id :
  v <> user_id ->
  route_message strftime a w v message_text = Some (response, a', log) ->
  alike user_id a' a.
Proof.
  intros Hne Hrun.
  destruct (route_message_outcome strftime _ _ _ _ _ _ _ Hrun)
    as (st' & _ & Hrg & Hbm & Hother & _).
  split; [exact Hrg|]. split; [exact Hbm|]. apply Hother. congruence.
Qed.

Lemma alike_trans user_id a b c :
  alike user_id a b -> alike user_id b c -> alike user_id a c.
Proof.
  intros (? & ? & ?) (? & ? & ?). repeat split; congruence.
Qed.

(** The messages of one subject. *)
Definition from (user_id : string) (messages : list message) : list message :=
  List.filter (fun m => bool_decide (sender m = user_id)) messages.

Lemma route_all_alone user_id messages :
  forall a b a' trace,
    alike user_id a b ->
    route_all strftime a messages = Some (a', trace) ->
    exists b' trace',
      route_all strftime b (from user_id messages) = Some (b', trace')
      /\ alike user_id a' b'
      /\ said user_id trace' = said user_id trace
      /\ attempts user_id trace' = attempts user_id trace.
Proof.
  induction messages as [|m messages IH]; intros a b a' trace Hab Hrun.
  - injection Hrun as <- <-. exists b, []. repeat split; apply Hab.
  - cbn [route_all] in Hrun.
    destruct (route_message strftime a (env m) (sender m) (text m))
      as [[[response a1] log]|] eqn:Hstep; [|discriminate Hrun].
    cbn [mbind option_bind] in Hrun.
    destruct (route_all strftime a1 messages) as [[a2 rest]|] eqn:Hrest;
      [|discriminate Hrun].
    cbn [mbind option_bind] in Hrun.
    assert (Ha' : a' = a2) by congruence.
    assert (Htrace : trace = events_of m response log ++ rest) by congruence.
    subst a' trace. clear Hrun.
    rewrite said_app, attempts_app, said_events_of, attempts_events_of.
    unfold from. cbn [List.filter].
    destruct (decide (sender m = user_id)) as [Hsame|Hne].
    + rewrite (bool_decide_eq_true_2 _ Hsame). fold (from user_id messages).
      rewrite <- Hsame in Hab.
      destruct (route_message_alike _ _ _ _ _ _ _ _ Hab Hstep)
        as (b1 & Hstep' & Hab1).
      rewrite Hsame in Hab1.
      destruct (IH _ _ _ _ Hab1 Hrest) as (b2 & rest' & Hrest' & Hab2 & Hsaid & Hatt).
      exists b2, (events_of m response log ++ rest').
      cbn [route_all]. rewrite Hstep'. cbn [mbind option_bind]. rewrite Hrest'.
      split; [reflexivity|]. split; [exact Hab2|].
      rewrite said_app, attempts_app, said_events_of, attempts_events_of.
      destruct (decide (sender m = user_id)); [|congruence].
      rewrite Hsaid, Hatt. split; reflexivity.
    + rewrite (bool_decide_eq_false_2 _ Hne). fold (from user_id messages).
      pose proof (route_message_elsewhere _ _ _ _ _ _ _ user_id Hne Hstep) as Ha1.
      destruct (IH _ _ _ _ (alike_trans _ _ _ _ Ha1 Hab) Hrest)
        as (b2 & rest' & Hrest' & Hab2 & Hsaid & Hatt).
      exists b2, rest'. split; [exact Hrest'|]. split; [exact Hab2|].
      rewrite (attempts_other _ _ _ Hne). cbn [app].
      split; assumption.
Qed.
End Isolation.

(** X9. Subjects do not interfere.  Whatever other subjects send in between,
    a run leaves a subject in the state, with the replies and with the
    booking attempts, of the run of that subject's messages alone. *)
Theorem other_subjects_do_not_interfere
    (strftime : Z -> string -> string)
    (messages : list message) (self self' : IntentRouter.t)
    (trace : list event) (user_id : string) :
  route_all strftime self messages = Some (self', trace) ->
  exists alone trace',
    route_all strftime self (from user_id messages) = Some (alone, trace')
    /\ state_of alone user_id = state_of self' user_id
    /\ said user_id trace' = said user_id trace
    /\ attempts user_id trace' = attempts user_id trace.
Proof.
  intros Hrun.
  destruct (route_all_alone strftime user_id messages self self self' trace
              (conj eq_refl (conj eq_refl eq_refl)) Hrun)
    as (alone & trace' & Halone & (_ & _ & Hstate) & Hsaid & Hattempts).
  exists alone, trace'. split; [exact Halone|].
  split; [symmetry; exact Hstate|]. split; assumption.
Qed.

Section TwoSubjects.
Definition crowd : list message :=
  [asks "17841400111" "how much is a fade?";
   inquiry;
   asks "17841400111" "ok thanks";
   confirms (calendar_with [busy_14_to_15])].
End TwoSubjects.

Lemma other_subjects_do_not_interfere_witness :
  exists self' alone trace trace',
    route_all plain_strftime (fresh la_barber shop) crowd = Some (self', trace)
    /\ route_all plain_strftime (fresh la_barber shop)
         [inquiry; confirms (calendar_with [busy_14_to_15])]
       = Some (alone, trace')
    /\ state_of alone "17841400000" = state_of self' "17841400000".
Proof.
  destruct (route_all plain_strftime (fresh la_barber shop) crowd)
    as [[self' trace]|] eqn:Hrun; [|vm_compute in Hrun; discriminate Hrun].
  destruct (other_subjects_do_not_interfere plain_strftime crowd _ _ _
              "17841400000"%string Hrun)
    as (alone & trace' & Halone & Hstate & _).
  exists self', alone, trace, trace'. split; [reflexivity|].
  split; [exact Halone|exact Hstate].
Defined.

(** ** The history is made of exchanges *)

Section Exchanges.
Import IntentRouter Py.

Variable strftime : Z -> string -> string.






End Exchanges.



(** ** General questions *)

Section GeneralQuestions.
Import IntentRouter Py.

Variable strftime : Z -> string -> string.

Lemma no_question_in_calendar_effects calls context :
  ~ In (Question context) (calendar_effects calls).
Proof.
  unfold calendar_effects. intros Hin.
  apply in_map_iff in Hin as (c & Hc & _). discriminate Hc.
Qed.

(** Only the [general_question] branch asks, and it leaves the state as it
    found it. *)
Lemma question_is_for_general_question self w user_id intent message_text st
    response st' log context :
  _handle_intent strftime self w user_id intent message_text st
  = Some (response, st', log) ->
  In (Question context) log ->
  intent = "general_question"%string /\ st' = st
  /\ response = match answer_reply w with
                | Some answer => answer
                | None => ResponseGenerator.fallback_response (pick w)
                end.
Proof.
  unfold _handle_intent. intros Hrun Hin.
  destruct (String.eqb intent "greeting").
  { injection Hrun as _ _ <-. destruct Hin. }
  destruct (String.eqb intent "booking_inquiry").
  { destruct (_extract_date_time w).
    - destruct (BookingManager.get_available_slots _ _ _ _ _ _)
        as [[slots calls]|]; [|discriminate Hrun].
      injection Hrun as _ _ <-.
      destruct (no_question_in_calendar_effects _ _ Hin).
    - injection Hrun as _ _ <-. destruct Hin. }
  destruct (String.eqb intent "confirm_booking"
            && in_confirmable_stage (stage_of st)).
  { destruct (truthy (_extract_confirmed_time message_text st)).
    - destruct (_extract_confirmed_time message_text st) as [[| | |t]|];
        try discriminate Hrun.
      destruct (BookingManager.create_booking _ _ _ _ _ _) as [[r calls]|];
        [|discriminate Hrun].
      cbn [mbind option_bind] in Hrun.
      assert (Hno : ~ In (Question context)
                      (calendar_effects calls ++ [Booking user_id t r])).
      { intros Hq. apply in_app_or in Hq as [Hq|[Hq|[]]].
        - exact (no_question_in_calendar_effects _ _ Hq).
        - discriminate Hq. }
      destruct (truthy (r !! "success"%string)); injection Hrun as _ _ <-;
        destruct (Hno Hin).
    - injection Hrun as _ _ <-. destruct Hin. }
  destruct (String.eqb intent "cancel_booking").
  { injection Hrun as _ _ <-. destruct Hin. }
  destruct (String.eqb_spec intent "general_question") as [->|_].
  - unfold _answer_general_question in Hrun.
    destruct (answer_reply w); injection Hrun as <- <- _; auto.
  - injection Hrun as _ _ <-. destruct Hin.
Qed.
End GeneralQuestions.

(** X11. The question-answering collaborator is called only for a message
    classified as a general question.  It is handed at most 4 turns ending
    with the inbound message itself, nothing else is done in that call, and
    the subject's stage and booking data stay as they were. *)
Theorem question_context_ends_with_the_question
    (strftime : Z -> string -> string)
    (self : IntentRouter.t) (w : IntentRouter.world)
    (user_id message_text response : string)
    (self' : IntentRouter.t) (log : list IntentRouter.effect)
    (context : list IntentRouter.turn) :
  IntentRouter.route_message strftime self w user_id message_text
  = Some (response, self', log) ->
  In (IntentRouter.Question context) log ->
  IntentRouter._detect_intent w = "general_question"%string
  /\ log = [IntentRouter.Question context]
  /\ last context = Some (user_turn message_text)
  /\ length context <= 4
  /\ IntentRouter.stage_of (state_of self' user_id)
     = IntentRouter.stage_of (state_of self user_id)
  /\ IntentRouter.booking_data (state_of self' user_id)
     = IntentRouter.booking_data (state_of self user_id).
Proof.
  intros Hrun Hin.
  destruct (route_message_outcome strftime _ _ _ _ _ _ _ Hrun)
    as (st' & Hhandle & _ & _ & _ & _ & _ & Hstage & Hdata & _).
  destruct (question_is_for_general_question strftime _ _ _ _ _ _ _ _ _ _
              Hhandle Hin) as (Hintent & -> & _).
  destruct (handle_intent_outcome strftime _ _ _ _ _ _ _ _ _ Hhandle)
    as (_ & Hquestion & _).
  destruct (Hquestion _ Hin) as [Hlog ->].
  cbn [IntentRouter.history IntentRouter.set_history IntentRouter.stage_of
       IntentRouter.booking_data] in *.
  repeat split; try assumption.
  - unfold Py.last_n. rewrite length_app. cbn [length].
    rewrite drop_app_le by lia. apply last_snoc.
  - apply last_n_length.
Qed.

Lemma question_context_ends_with_the_question_witness :
  exists response self' context,
    IntentRouter.route_message plain_strftime (fresh la_barber shop)
      (answers "general_question" None (calendar_with []))
      "17841400000" "When do you close?"
    = Some (response, self', [IntentRouter.Question context])
    /\ last context = Some (user_turn "When do you close?").
Proof.
  destruct (IntentRouter.route_message plain_strftime (fresh la_barber shop)
              (answers "general_question" None (calendar_with []))
              "17841400000" "When do you close?")
    as [[[response self'] log]|] eqn:Hrun;
    [|vm_compute in Hrun; discriminate Hrun].
  assert (Hlog : exists context, log = [IntentRouter.Question context]).
  { vm_compute in Hrun. injection Hrun as _ _ <-. eexists. reflexivity. }
  destruct Hlog as (context & ->).
  exists response, self', context. split; [reflexivity|].
  exact (proj1 (proj2 (proj2
    (question_context_ends_with_the_question plain_strftime _ _ _ _ _ _ _ _
       Hrun (or_introl eq_refl))))).
Defined.

(** ** From discovery to commit *)

Section ShownSlots.
Local Open Scope Z_scope.
Import CalendarService.

Lemma time_block_within_day dt :
  forall bs be block,
    Forall clock_time bs -> Forall clock_time be ->
    In block (time_blocks dt bs be) ->
    date dt * usec_per_day <= fst block
    /\ snd block < (date dt + 1) * usec_per_day.
Proof.
  induction bs as [|[sh sm] bs IH]; intros [|[eh em] be] block Hbs Hbe Hin;
    try (cbn [time_blocks In] in Hin; contradiction).
  cbn [time_blocks In] in Hin.
  apply Forall_cons in Hbs as [Hs Hbs]. apply Forall_cons in Hbe as [He Hbe].
  destruct Hin as [<-|Hin]; [|exact (IH be block Hbs Hbe Hin)].
  cbn [fst snd]. rewrite !replace_offset.
  unfold clock_time in Hs, He. cbn [fst snd] in Hs, He.
  unfold usec_per_day, usec_per_hour, usec_per_minute, usec_per_second. lia.
Qed.

(** A slot of the day query lies on the day that was asked about. *)
Lemma day_slot_date self api dt slots calls s :
  0 < BookingManager.appointment_duration self ->
  Forall clock_time (BookingManager.business_hours_start self) ->
  Forall clock_time (BookingManager.business_hours_end self) ->
  query api self dt = Some (slots, calls) ->
  In s slots ->
  date s = date dt.
Proof.
  intros Hd Hbs Hbe Hrun Hin. unfold query in Hrun.
  pose proof (timedelta_minutes_pos _ Hd) as Hs.
  destruct (get_available_slots_shape _ _ _ _ _ _ _ _ Hrun)
    as [(-> & _)|(_ & _ & fb & lb & _ & _ & _ & [[_ ->]|Hread])];
    try destruct Hin.
  destruct Hread as (events & candidates & _ & Hcand & ->).
  rewrite all_slots_run in Hcand by (auto using loop_fuel_in).
  injection Hcand as <-.
  rewrite available_slots_filter in Hin. apply filter_In in Hin as [Hin _].
  apply in_flat_map in Hin as (block & Hblock & Hin).
  apply (in_starts_iff block _ s Hs) in Hin as (k & Hk & Hfit).
  destruct (time_block_within_day dt _ _ block Hbs Hbe Hblock) as [Hlo Hhi].
  unfold date at 1. symmetry.
  apply (Z.div_unique_pos s usec_per_day (date dt) (s - date dt * usec_per_day));
    [|ring].
  nia.
Qed.
End ShownSlots.

(** X12. A slot that discovery shows passes re-validation as long as the
    calendar answers its reads as it did: [create_booking] for the shown time
    reaches the create-event call, for that time, and its result is a
    booking record or the [calendar_error] failure, never
    [time_not_available]. *)
Theorem shown_slot_passes_revalidation
    (strftime : Z -> string -> string) (clock : nat -> Z)
    (api : CalendarService.remote) (self : BookingManager.t)
    (requested_date num_days : Z)
    (shown : list ResponseGenerator.slot_entry)
    (calls : list CalendarService.api_call)
    (e : ResponseGenerator.slot_entry)
    (user_id customer_name service_type : string) :
  (0 < BookingManager.appointment_duration self)%Z ->
  Forall clock_time (BookingManager.business_hours_start self) ->
  Forall clock_time (BookingManager.business_hours_end self) ->
  BookingManager.get_available_slots strftime clock api self
    requested_date num_days = Some (shown, calls) ->
  In e shown ->
  exists r reads body,
    BookingManager.create_booking api self user_id customer_name
      (ResponseGenerator.datetime e) service_type
    = Some (r, reads ++ [CalendarService.EventsInsert body])
    /\ Forall is_list_call reads
    /\ CalendarService.start_dateTime body = ResponseGenerator.datetime e
    /\ r <> not_available_result
    /\ ((exists id,
           CalendarService.events_insert api body
           = CalendarService.Returned (Some id)
           /\ id <> ""%string
           /\ r = BookingManager.booked id customer_name service_type
                    (ResponseGenerator.datetime e))
        \/ (no_event_id (CalendarService.events_insert api body)
            /\ r = calendar_error_result)).
Proof.
  intros Hd Hbs Hbe Hrun He. unfold BookingManager.get_available_slots in Hrun.
  destruct (BookingManager.days_loop strftime clock api self 0 requested_date
              (BookingManager.range num_days)) as [[entries calls0]|] eqn:Hloop;
    [|discriminate Hrun].
  cbn [mbind option_bind] in Hrun. injection Hrun as <- <-.
  assert (He' : In e entries).
  { apply list_elem_of_In. apply list_elem_of_In in He.
    exact (subseteq_take 5 entries e He). }
  destruct (days_loop_gathers strftime clock api self _ _ _ _ _ Hloop)
    as (Hentries & _ & _).
  destruct (Hentries e He') as (k & _ & _ & _ & _ & Hslot & _).
  set (s := ResponseGenerator.datetime e) in *.
  unfold day_slots in Hslot.
  destruct (query api self (requested_date + timedelta_days k)%Z)
    as [[slots reads]|] eqn:Hq; [|destruct Hslot].
  pose proof (day_slot_date _ _ _ _ _ _ Hd Hbs Hbe Hq Hslot) as Hday.
  assert (Hq' : query api self (replace s 0 0) = Some (slots, reads)).
  { rewrite <- Hq. unfold query. apply get_available_slots_same_day.
    rewrite date_replace_midnight. exact Hday. }
  assert (Hreads : Forall is_list_call reads).
  { unfold query in Hq.
    destruct (get_available_slots_shape _ _ _ _ _ _ _ _ Hq)
      as [(_ & -> & _)|(_ & _ & fb & lb & _ & _ & -> & _)]; repeat constructor. }
  destruct (create_booking_cases api self user_id customer_name s service_type
              slots reads Hq')
    as [[Eany _]|(_ & _ & body & Hstart & Hout)].
  - exfalso.
    assert (Hany : BookingManager.any_within_minute s slots = true).
    { apply any_within_minute_spec. exists s. split; [exact Hslot|].
      rewrite Z.sub_diag. vm_compute. reflexivity. }
    congruence.
  - destruct Hout as [(id & Hins & Hid & Hbook)|[Hnone Hbook]].
    + exists (BookingManager.booked id customer_name service_type s), reads, body.
      split; [exact Hbook|]. split; [exact Hreads|]. split; [exact Hstart|].
      split; [|left; exists id; repeat split; assumption].
      intros Heq.
      apply (f_equal (fun m : gmap string Py.value => m !! "success"%string))
        in Heq.
      vm_compute in Heq. discriminate Heq.
    + exists calendar_error_result, reads, body.
      split; [exact Hbook|]. split; [exact Hreads|]. split; [exact Hstart|].
      split; [exact error_results_differ|right; split; [exact Hnone|reflexivity]].
Qed.

Lemma shown_slot_passes_revalidation_witness :
  exists r log,
    BookingManager.create_booking (calendar_with [busy_14_to_15]) shop
      "17841400000" "Customer" (at_hour 15) "Haircut" = Some (r, log)
    /\ r <> not_available_result.
Proof.
  destruct (BookingManager.get_available_slots plain_strftime noon_clock
              (calendar_with [busy_14_to_15]) shop (at_hour 14) 1)
    as [[shown calls]|] eqn:Hrun; [|vm_compute in Hrun; discriminate Hrun].
  assert (He : In (BookingManager.entry plain_strftime (at_hour 15)) shown).
  { vm_compute in Hrun. injection Hrun as <- _. right. left. reflexivity. }
  destruct (shown_slot_passes_revalidation plain_strftime noon_clock
              (calendar_with [busy_14_to_15]) shop (at_hour 14) 1 shown calls
              (BookingManager.entry plain_strftime (at_hour 15))
              "17841400000" "Customer" "Haircut"
              ltac:(reflexivity)
              ltac:(repeat constructor; vm_compute; discriminate)
              ltac:(repeat constructor; vm_compute; discriminate)
              Hrun He)
    as (r & reads & body & Hbook & _ & _ & Hr & _).
  exists r, (reads ++ [CalendarService.EventsInsert body]).
  split; [exact Hbook|exact Hr].
Defined.

(** ** Clearing a conversation *)

(** X13. [clear_conversation] forgets one subject and nothing else: the
    other subjects' entries stay, clearing an unknown subject changes
    nothing, and any run after it treats the cleared subject as a router
    that has never heard of them would (same replies, same booking
    attempts, same resulting state). *)
Theorem clearing_starts_the_subject_afresh
    (strftime : Z -> string -> string)
    (self : IntentRouter.t) (user_id : string)
    (messages : list message) (self' : IntentRouter.t) (trace : list event) :
  route_all strftime (IntentRouter.clear_conversation self user_id) messages
  = Some (self', trace) ->
  (exists alone trace',
     route_all strftime
       (fresh (IntentRouter.response_generator self)
              (IntentRouter.booking_manager self))
       (from user_id messages) = Some (alone, trace')
     /\ state_of alone user_id = state_of self' user_id
     /\ said user_id trace' = said user_id trace
     /\ attempts user_id trace' = attempts user_id trace)
  /\ (forall v, v <> user_id ->
        IntentRouter.conversation_state
          (IntentRouter.clear_conversation self user_id) !! v
        = IntentRouter.conversation_state self !! v)
  /\ IntentRouter.conversation_state
       (IntentRouter.clear_conversation self user_id) !! user_id = None
  /\ (IntentRouter.conversation_state self !! user_id = None ->
      IntentRouter.clear_conversation self user_id = self).
Proof.
  intros Hrun. split; [|split; [|split]].
  - assert (Halike : alike user_id (IntentRouter.clear_conversation self user_id)
                       (fresh (IntentRouter.response_generator self)
                              (IntentRouter.booking_manager self))).
    { split; [reflexivity|]. split; [reflexivity|].
      rewrite state_of_clear. destruct (decide (user_id = user_id)); [|congruence].
      reflexivity. }
    destruct (route_all_alone strftime user_id messages _ _ _ _ Halike Hrun)
      as (alone & trace' & Halone & (_ & _ & Hstate) & Hsaid & Hattempts).
    exists alone, trace'. split; [exact Halone|].
    split; [symmetry; exact Hstate|]. split; assumption.
  - intros v Hne. cbn [IntentRouter.clear_conversation
                         IntentRouter.conversation_state].
    apply lookup_delete_ne. congruence.
  - cbn [IntentRouter.clear_conversation IntentRouter.conversation_state].
    apply lookup_delete_eq.
  - intros Hnone. destruct self as [rg bm store].
    unfold IntentRouter.clear_conversation.
    cbn [IntentRouter.conversation_state IntentRouter.response_generator
         IntentRouter.booking_manager] in *.
    f_equal. apply delete_id. exact Hnone.
Qed.

Lemma clearing_starts_the_subject_afresh_witness :
  exists self' alone trace trace',
    route_all plain_strftime
      (IntentRouter.clear_conversation after_inquiry "17841400000")
      [confirms (calendar_with [])] = Some (self', trace)
    /\ route_all plain_strftime (fresh la_barber shop)
         [confirms (calendar_with [])] = Some (alone, trace')
    /\ state_of alone "17841400000" = state_of self' "17841400000"
    /\ IntentRouter.stage_of (state_of self' "17841400000")
       = IntentRouter.initial.
Proof.
  destruct (route_all plain_strftime
              (IntentRouter.clear_conversation after_inquiry "17841400000")
              [confirms (calendar_with [])])
    as [[self' trace]|] eqn:Hrun; [|vm_compute in Hrun; discriminate Hrun].
  destruct (clearing_starts_the_subject_afresh plain_strftime after_inquiry
              "17841400000" [confirms (calendar_with [])] self' trace Hrun)
    as ((alone & trace' & Halone & Hstate & _) & _).
  exists self', alone, trace, trace'.
  split; [reflexivity|]. split; [exact Halone|]. split; [exact Hstate|].
  rewrite <- Hstate. clear Hrun Hstate.
  vm_compute in Halone. injection Halone as <- _. reflexivity.
Defined.

(** ** A shop without a usable calendar configuration *)

Section ClosedShop.
Import CalendarService BookingManager.

Variable strftime : Z -> string -> string.
Variable clock : nat -> Z.
Variable api : remote.
Variable self : BookingManager.t.



End ClosedShop.


Section Misconfigured.
End Misconfigured.


(** ** What the availability reply shows *)

Section Replies.
Import ResponseGenerator.

Lemma numbered_lines_formatted a :
  forall b i,
    formatted <$> a = formatted <$> b ->
    numbered_lines i a = numbered_lines i b.
Proof.
  induction a as [|x a IH]; intros [|y b] i Heq; try discriminate Heq;
    [reflexivity|].
  cbn [fmap list_fmap] in Heq. injection Heq as Hxy Hrest.
  cbn [numbered_lines]. rewrite Hxy, (IH b (S i) Hrest). reflexivity.
Qed.
End Replies.

(** X15. The availability reply is determined by the [formatted] strings of
    the first three slots it is given: slots past the third (discovery
    returns up to five) and the other fields of a slot never reach the
    customer. *)
Theorem availability_reply_shows_the_first_three
    (a b : list ResponseGenerator.slot_entry) :
  ResponseGenerator.formatted <$> take 3 a
  = ResponseGenerator.formatted <$> take 3 b ->
  ResponseGenerator.availability_response a
  = ResponseGenerator.availability_response b.
Proof.
  intros Heq. unfold ResponseGenerator.availability_response.
  destruct a as [|x a], b as [|y b]; try discriminate Heq; [reflexivity|].
  rewrite (numbered_lines_formatted _ _ 1 Heq). reflexivity.
Qed.

Lemma availability_reply_shows_the_first_three_witness :
  ResponseGenerator.availability_response
    (BookingManager.entry plain_strftime
       <$> [at_hour 9; at_hour 10; at_hour 11; at_hour 12; at_hour 13])
  = ResponseGenerator.availability_response
      (BookingManager.entry plain_strftime
         <$> [at_hour 9; at_hour 10; at_hour 11]).
Proof.
  apply availability_reply_shows_the_first_three. reflexivity.
Defined.

(** ** Confirmation keywords *)

Section Keywords.
Import IntentRouter Py.

Lemma lower_app a b : lower (a +:+ b) = lower a +:+ lower b.
Proof.
  induction a as [|c a IH]; [reflexivity|].
  change (lower (String c a +:+ b))
    with (String (lower_ascii c) (lower (a +:+ b))).
  rewrite IH. reflexivity.
Qed.

Lemma prefix_app word rest : String.prefix word (word +:+ rest) = true.
Proof.
  induction word as [|c word IH];
    [change (EmptyString +:+ rest) with rest; destruct rest; reflexivity|].
  change (String c word +:+ rest) with (String c (word +:+ rest)).
  cbn [String.prefix].
  destruct (Ascii.ascii_dec c c) as [_|Hne]; [exact IH|destruct (Hne eq_refl)].
Qed.

Lemma contains_app word pre post :
  contains word (pre +:+ word +:+ post) = true.
Proof.
  induction pre as [|c pre IH].
  - change (EmptyString +:+ word +:+ post) with (word +:+ post).
    destruct (word +:+ post) eqn:E; cbn [contains]; rewrite <- E, prefix_app;
      reflexivity.
  - change (String c pre +:+ word +:+ post)
      with (String c (pre +:+ word +:+ post)).
    cbn [contains]. rewrite IH.
    destruct (String.prefix word _); reflexivity.
Qed.
End Keywords.

(** X16. The confirmation test is a case-insensitive substring match: a
    message that contains one of the five confirmation words anywhere, in
    any letter case and also inside a longer word, yields the stored
    [proposed_time], whatever else the message says. *)
Theorem confirmation_is_a_substring_match
    (pre word post : string) (st : IntentRouter.state) :
  In (Py.lower word) IntentRouter.confirmation_words ->
  IntentRouter._extract_confirmed_time (pre +:+ word +:+ post) st
  = IntentRouter.booking_data st !! "proposed_time"%string.
Proof.
  intros Hword. unfold IntentRouter._extract_confirmed_time.
  replace (existsb _ IntentRouter.confirmation_words) with true; [reflexivity|].
  symmetry. apply existsb_exists. exists (Py.lower word).
  split; [exact Hword|]. rewrite !lower_app. apply contains_app.
Qed.

Lemma confirmation_is_a_substring_match_witness :
  IntentRouter._extract_confirmed_time "I saw it on FaceBook yesterday"
    (state_of (with_proposal IntentRouter.showing_availability (at_hour 15))
       "17841400000")
  = Some (Py.PyDatetime (at_hour 15)).
Proof.
  rewrite (confirmation_is_a_substring_match "I saw it on Face" "Book"
             " yesterday" _ ltac:(vm_compute; tauto)).
  reflexivity.
Defined.
